(** * ubuntu_health_check.py : the health evaluation and the report it prints

    A shallow embedding of [scripts/ubuntu_health_check.py].  The script is one
    straight-line [main]: it asks the host a fixed series of questions
    (external commands, two files, the clock), applies three rules to what
    it collected, assembles a dictionary, prints it and exits with a status
    code.

    - Python [str] is modelled by [string], a character being a code point
      below 256; white space and decimal digits are those of that range.
    - Python [int] is [Z]; Python [float] is an IEEE-754 binary64 value,
      represented by [spec_float] with the operations of [SpecFloat].
    - The dictionary [data] is a [PyVal], its keys in insertion order.
    - The host is an abstract state [W] threaded through every call, together
      with the exception a call may raise: [M W A := W -> (PyExc + A) * W].
      An uncaught exception ends the run without a report. *)

From Stdlib Require Import ZArith List String Ascii Bool Lia DecimalString.
From Stdlib Require Import Floats.SpecFloat.
From Stdlib Require Decimal DecimalPos.
Import ListNotations.

Local Open Scope string_scope.
Local Open Scope Z_scope.

(* ===================================================================== *)
(** ** Python strings *)
(* ===================================================================== *)

Module PyStrOps.

(** [str.isspace] on one character, for code points below 256. *)
Definition is_space (c : ascii) : bool :=
  let n := Z.of_nat (nat_of_ascii c) in
  ((9 <=? n) && (n <=? 13)) || ((28 <=? n) && (n <=? 32))
  || (n =? 133) || (n =? 160).

Definition is_empty (s : string) : bool :=
  match s with EmptyString => true | String _ _ => false end.

(** Truth value of a [str]: non-empty. *)
Definition truthy (s : string) : bool := negb (is_empty s).

Fixpoint lstrip_by (p : ascii -> bool) (s : string) : string :=
  match s with
  | EmptyString => EmptyString
  | String c s' => if p c then lstrip_by p s' else s
  end.

Fixpoint rstrip_by (p : ascii -> bool) (s : string) : string :=
  match s with
  | EmptyString => EmptyString
  | String c s' =>
      let r := rstrip_by p s' in
      if is_empty r && p c then EmptyString else String c r
  end.

Definition strip_by (p : ascii -> bool) (s : string) : string :=
  rstrip_by p (lstrip_by p s).

(** [s.strip()] *)
Definition strip (s : string) : string := strip_by is_space s.

(** [s.strip(chars)] and [s.rstrip(chars)] for a one-character [chars]. *)
Definition strip_char (c : ascii) (s : string) : string :=
  strip_by (Ascii.eqb c) s.
Definition rstrip_char (c : ascii) (s : string) : string :=
  rstrip_by (Ascii.eqb c) s.

Definition cons_word (w : string) (ws : list string) : list string :=
  if is_empty w then ws else w :: ws.

(** The word that begins at the head of [s] (empty when [s] begins with white
    space) and the words after it. *)
Fixpoint split_go (s : string) : string * list string :=
  match s with
  | EmptyString => (EmptyString, [])
  | String c s' =>
      let (w, ws) := split_go s' in
      if is_space c then (EmptyString, cons_word w ws) else (String c w, ws)
  end.

(** [s.split()] : the maximal runs of non-space characters, in order. *)
Definition split (s : string) : list string :=
  let (w, ws) := split_go s in cons_word w ws.

(** [sep.join(l)] *)
Definition join (sep : string) (l : list string) : string :=
  String.concat sep l.

(** [s.startswith(p)] *)
Fixpoint startswith (p s : string) : bool :=
  match p with
  | EmptyString => true
  | String a p' =>
      match s with
      | EmptyString => false
      | String b s' => Ascii.eqb a b && startswith p' s'
      end
  end.

(** [s.split(sep, 1)[1]] for a one-character [sep]: what follows the first
    [sep]; [None] is the IndexError when [s] holds no [sep]. *)
Fixpoint after_first (sep : ascii) (s : string) : option string :=
  match s with
  | EmptyString => None
  | String c s' => if Ascii.eqb c sep then Some s' else after_first sep s'
  end.

(** The lines of a text as iterating over a text file yields them: each line
    keeps its newline, the last one may lack it. *)
Fixpoint lines_go (s : string) : string * list string :=
  match s with
  | EmptyString => (EmptyString, [])
  | String c s' =>
      let (l, ls) := lines_go s' in
      if Ascii.eqb c "010"%char
      then (String c EmptyString, cons_word l ls)
      else (String c l, ls)
  end.

Definition lines (s : string) : list string :=
  let (l, ls) := lines_go s in cons_word l ls.

Definition is_digit (c : ascii) : bool :=
  let n := Z.of_nat (nat_of_ascii c) in (48 <=? n) && (n <=? 57).

Definition digit_val (c : ascii) : Z := Z.of_nat (nat_of_ascii c) - 48.

(** The digits of a decimal literal after its sign: digits, with single
    underscores allowed between two digits.  [prev] tells whether the
    previous character was a digit. *)
Fixpoint int_digits (s : string) (acc : Z) (prev : bool) : option Z :=
  match s with
  | EmptyString => if prev then Some acc else None
  | String c s' =>
      if is_digit c then int_digits s' (10 * acc + digit_val c) true
      else if Ascii.eqb c "_"%char && prev then int_digits s' acc false
      else None
  end.

(** The white space that [int] skips at both ends: the ASCII white space and
    the two white-space characters above 127; not the separators 28 to 31. *)
Definition is_int_space (c : ascii) : bool :=
  let n := Z.of_nat (nat_of_ascii c) in
  ((9 <=? n) && (n <=? 13)) || (n =? 32) || (n =? 133) || (n =? 160).

(** [int(s)] for a [str] in base 10; [None] is the ValueError. *)
Definition int (s : string) : option Z :=
  match strip_by is_int_space s with
  | String "+" d => int_digits d 0 false
  | String "-" d => option_map Z.opp (int_digits d 0 false)
  | d => int_digits d 0 false
  end.

(** [str(n)] for an [int], as an f-string renders it. *)
Definition str_of_int (n : Z) : string :=
  NilZero.string_of_int (Z.to_int n).

End PyStrOps.


(* ===================================================================== *)
(** ** Exceptions and Python floats *)
(* ===================================================================== *)

(** The exceptions the script can meet. *)
Inductive PyExc : Type :=
  | ValueError
  | OverflowError
  | ZeroDivisionError
  | IndexError
  | OSError.

Module PyFloatOps.

(** binary64 *)
Definition prec : Z := 53.
Definition emax : Z := 1024.

(** An integer as an exact, not yet rounded, operand. *)
Definition exact (z : Z) : spec_float :=
  match z with
  | Z0 => S754_zero false
  | Zpos p => S754_finite false p 0
  | Zneg p => S754_finite true p 0
  end.

(** [float(n)] for an [int] that fits: round to nearest, ties to even. *)
Definition of_int (z : Z) : spec_float := binary_normalize prec emax z 0 false.

(** [a / b] on two [int]s: the exact quotient, correctly rounded. *)
Definition truediv (a b : Z) : PyExc + spec_float :=
  if b =? 0 then inl ZeroDivisionError
  else if a =? 0 then inr (S754_zero (b <? 0))
  else match SFdiv prec emax (exact a) (exact b) with
       | S754_infinity _ => inl OverflowError
       | q => inr q
       end.

(** [x * y] on two [float]s. *)
Definition mul (x y : spec_float) : spec_float := SFmul prec emax x y.

(** [num / den] rounded to the nearest integer, ties to the even one
    ([num >= 0], [den > 0]). *)
Definition div_half_even (num den : Z) : Z :=
  let q := num / den in
  let r := num mod den in
  match 2 * r ?= den with
  | Lt => q
  | Gt => q + 1
  | Eq => if Z.even q then q else q + 1
  end.

(** [round(x, 1)] on a [float]: the decimal with one fractional digit
    nearest to the exact value of [x] (ties to even), then the [float]
    nearest to that decimal.  Zeros, infinities and NaN round to
    themselves. *)
Definition round1 (x : spec_float) : spec_float :=
  match x with
  | S754_finite s m e =>
      let tenths :=
        match e with
        | Zneg k => div_half_even (Zpos m * 10) (2 ^ Zpos k)
        | _ => Zpos m * 10 * 2 ^ e
        end in
      match tenths with
      | Zpos t => SFdiv prec emax (S754_finite s t 0) (exact 10)
      | _ => S754_zero s
      end
  | _ => x
  end.

End PyFloatOps.

(* ===================================================================== *)
(** ** Python values, as [json.dumps] receives them *)
(* ===================================================================== *)

(** A [dict] keeps its keys in insertion order, which is the order of the
    printed report: an association list. *)
#[local] Unset Elimination Schemes.
Inductive PyVal : Type :=
  | PyNone
  | PyInt (n : Z)
  | PyFloat (x : spec_float)
  | PyStr (s : string)
  | PyList (l : list PyVal)
  | PyDict (d : list (string * PyVal)).
#[local] Set Elimination Schemes.

Module PyValOps.

Fixpoint assoc (k : string) (d : list (string * PyVal)) : option PyVal :=
  match d with
  | [] => None
  | (k', v) :: d' => if String.eqb k k' then Some v else assoc k d'
  end.

(** [v[k]] *)
Definition item (k : string) (v : PyVal) : option PyVal :=
  match v with
  | PyDict d => assoc k d
  | _ => None
  end.

(** [v[k1][k2]...] *)
Fixpoint path (ks : list string) (v : PyVal) : option PyVal :=
  match ks with
  | [] => Some v
  | k :: ks' =>
      match item k v with
      | Some v' => path ks' v'
      | None => None
      end
  end.

Definition strs (l : list string) : PyVal := PyList (map PyStr l).

(** A [str] or [None]. *)
Definition opt_str (o : option string) : PyVal :=
  match o with
  | Some s => PyStr s
  | None => PyNone
  end.

End PyValOps.

(* ===================================================================== *)
(** ** The host, and the monad of calls to it *)
(* ===================================================================== *)

(** What [subprocess.run] returns. *)
Record CompletedProcess : Type := mkProc {
  returncode : Z;
  stdout : string;
  stderr : string
}.

(** A computation on a host in state [W]: it raises or returns, and leaves
    the host in a new state. *)
Definition M (W A : Type) : Type := W -> (PyExc + A) * W.

Definition ret {W A : Type} (a : A) : M W A := fun w => (inr a, w).

Definition raise {W A : Type} (e : PyExc) : M W A := fun w => (inl e, w).

Definition bind {W A B : Type} (m : M W A) (f : A -> M W B) : M W B :=
  fun w =>
    match m w with
    | (inr a, w1) => f a w1
    | (inl e, w1) => (inl e, w1)
    end.

(** [try: m  except: h] *)
Definition try_except {W A : Type} (m : M W A) (h : PyExc -> M W A) : M W A :=
  fun w =>
    match m w with
    | (inr a, w1) => (inr a, w1)
    | (inl e, w1) => h e w1
    end.

(** A pure step that may raise. *)
Definition lift {W A : Type} (r : PyExc + A) : M W A := fun w => (r, w).

Definition or_raise {A : Type} (e : PyExc) (o : option A) : PyExc + A :=
  match o with
  | Some a => inr a
  | None => inl e
  end.

Declare Scope py_scope.
Delimit Scope py_scope with py.
Notation "x <- m ;; k" := (bind m (fun x => k))
  (at level 61, m at next level, right associativity) : py_scope.
Notation "' p <- m ;; k" := (bind m (fun x => match x with p => k end))
  (at level 61, p pattern, m at next level, right associativity) : py_scope.
Local Open Scope py_scope.

(** The host as the script sees it.  Every call may change the host and may
    raise; two calls with the same argument need not agree. *)
Class Host (W : Type) : Type := {
  (** [subprocess.run(cmd, shell=True, text=True, stdout=PIPE, stderr=PIPE)] *)
  subprocess_run : string -> M W CompletedProcess;
  (** [shutil.which(cmd)] *)
  shutil_which : string -> M W (option string);
  (** [open(path)] and reading the text to its end *)
  read_text : string -> M W string;
  (** [platform.node()] *)
  platform_node : M W string;
  (** [platform.release()] *)
  platform_release : M W string;
  (** [time.strftime("%Y-%m-%dT%H:%M:%SZ", time.gmtime())] *)
  utc_timestamp : M W string
}.

(* ===================================================================== *)
(** ** The script *)
(* ===================================================================== *)

(** The parsed command line ([args]).  [format] is a [str]: argparse does not
    check a default taken from the environment against [choices]. *)
Record Args : Type := mkArgs {
  disk_threshold : Z;
  ping : string;
  services : string;
  format : string
}.

(** One [print] of the script. *)
Inductive Printed : Type :=
  | Line (s : string)
  | JsonDump (data : PyVal).

(** A run that reaches [exit]: what it printed, the dictionary [data] that it
    dumped, and its exit code. *)
Record Exit : Type := mkExit {
  printed : list Printed;
  report : PyVal;
  exit_code : Z
}.

Module Cmd.

Definition dq : string := String (ascii_of_nat 34) EmptyString.

Definition uptime : string := "uptime -p".

Definition boot : string :=
  "who -b | awk '{print $3" ++ dq ++ " " ++ dq ++ "$4}'".

Definition mpstat : string :=
  "mpstat 1 1 | awk '/Average/ && $3 ~ /CPU/ {next} /Average/ {print 100 - $NF}'".

Definition top : string :=
  "top -bn1 | awk -F'[, ]+' '/%Cpu/ {print 100-$8}'".

Definition meminfo (key : string) : string :=
  "grep " ++ key ++ " /proc/meminfo | awk '{print $2}'".

Definition df : string :=
  "df -hP / | awk 'NR==2{print $1" ++ dq ++ " " ++ dq ++ "$2" ++ dq ++ " "
  ++ dq ++ "$3" ++ dq ++ " " ++ dq ++ "$4" ++ dq ++ " " ++ dq ++ "$5" ++ dq
  ++ " " ++ dq ++ "$6}'".

Definition ping (target : string) : string := "ping -c 1 -W 2 " ++ target.

Definition is_active (svc : string) : string :=
  "systemctl is-active --quiet " ++ svc.

Definition apt : string :=
  "apt-get -s upgrade | awk '/^Inst /{count++} END{print count+0}'".

Definition docker : string := "docker info".

End Cmd.

Module Msg.

Definition disk (disk_use_pct : string) (threshold : Z) : string :=
  "Root disk usage " ++ disk_use_pct ++ " exceeds "
  ++ PyStrOps.str_of_int threshold ++ "%".

Definition ping (target : string) : string := "Ping to " ++ target ++ " failed".

Definition services (services_down : list string) : string :=
  "Services not active: " ++ PyStrOps.join " " services_down.

End Msg.

(** The groups of local variables the sections of [main] leave behind. *)
Record Basics : Type := mkBasics {
  host : string;
  kernel : string;
  os_name : string;
  uptime_out : string;
  boot_out : string;
  l1 : string;
  l5 : string;
  l15 : string
}.

Record Memory : Type := mkMemory {
  mem_total : Z;
  mem_avail : Z;
  mem_used : Z;
  mem_used_pct : PyVal
}.

Record Disk : Type := mkDisk {
  disk_fs : string;
  disk_size : string;
  disk_used : string;
  disk_avail : string;
  disk_use_pct : string;
  disk_mount : string;
  disk_use_num : Z
}.

(** Everything collected before the services are looked at. *)
Record Collected : Type := mkCollected {
  basics : Basics;
  cpu_usage : option string;
  memory : Memory;
  disk : Disk;
  ping_ok : string;
  failures_so_far : list string
}.

Module Script.
Import PyStrOps PyValOps.

(** [for line in f: if line.startswith("PRETTY_NAME="): ...; break] with
    [os_name = ""] before the loop. *)
Fixpoint pretty_name (ls : list string) : PyExc + string :=
  match ls with
  | [] => inr ""
  | line :: rest =>
      if startswith "PRETTY_NAME=" line
      then match after_first "=" line with
           | Some v => inr (strip_char (ascii_of_nat 34) (strip v))
           | None => inl IndexError
           end
      else pretty_name rest
  end.

(** [a, b, c, d = l] *)
Definition unpack4 (l : list string) : PyExc + (string * string * string * string) :=
  match l with
  | [a; b; c; d] => inr (a, b, c, d)
  | _ => inl ValueError
  end.

(** [a, b, c, d, e, f = l] *)
Definition unpack6 (l : list string)
  : PyExc + (string * string * string * string * string * string) :=
  match l with
  | [a; b; c; d; e; f] => inr (a, b, c, d, e, f)
  | _ => inl ValueError
  end.

(** [s or None] *)
Definition or_none (s : string) : option string :=
  if truthy s then Some s else None.

(** [round((mem_used / mem_total) * 100, 1) if mem_total else 0] *)
Definition used_pct (mem_used mem_total : Z) : PyExc + PyVal :=
  if negb (mem_total =? 0)
  then match PyFloatOps.truediv mem_used mem_total with
       | inr q => inr (PyFloat (PyFloatOps.round1
                                  (PyFloatOps.mul q (PyFloatOps.of_int 100))))
       | inl e => inl e
       end
  else inr (PyInt 0).

(** [r.stdout.strip().split() if r.stdout.strip() else ["","","","","",""]] *)
Definition df_fields (out : string) : list string :=
  if truthy (strip out) then split (strip out) else [""; ""; ""; ""; ""; ""].

(** [int(disk_use_pct.rstrip("%")) if disk_use_pct else 0] *)
Definition use_num (disk_use_pct : string) : PyExc + Z :=
  if truthy disk_use_pct
  then or_raise ValueError (int (rstrip_char "%" disk_use_pct))
  else inr 0.

(** [status = "healthy" if not failures else "unhealthy"] *)
Definition status_of (failures : list string) : string :=
  match failures with
  | [] => "healthy"
  | _ :: _ => "unhealthy"
  end.

(** The dictionary [data] of lines 94 to 111. *)
Definition report_data (args : Args) (timestamp : string) (b : Basics)
    (cpu : option string) (m : Memory) (d : Disk) (ping_ok : string)
    (services_down : list string) (pkg_upgrades docker : PyVal)
    (status : string) (failures : list string) : PyVal :=
  PyDict
    [ ("timestamp", PyStr timestamp);
      ("host", PyStr (host b));
      ("os", PyStr (os_name b));
      ("kernel", PyStr (kernel b));
      ("uptime", PyStr (uptime_out b));
      ("boot_time", PyStr (boot_out b));
      ("loadavg", PyDict [("1m", PyStr (l1 b)); ("5m", PyStr (l5 b));
                          ("15m", PyStr (l15 b))]);
      ("cpu_usage_pct", opt_str cpu);
      ("memory", PyDict [("used_pct", mem_used_pct m);
                         ("used_kb", PyInt (mem_used m));
                         ("total_kb", PyInt (mem_total m))]);
      ("disk_root", PyDict [("used_pct", PyStr (disk_use_pct d));
                            ("size", PyStr (disk_size d));
                            ("avail", PyStr (disk_avail d));
                            ("threshold_pct", PyInt (disk_threshold args))]);
      ("network", PyDict [("ping_host", PyStr (ping args));
                          ("ping_ok", PyStr ping_ok)]);
      ("services", PyDict [("checked", strs (split (services args)));
                           ("down", strs services_down)]);
      ("packages", PyDict [("upgrades_pending", pkg_upgrades)]);
      ("docker", docker);
      ("status", PyStr status);
      ("failures", strs failures) ].

Section OnHost.
Context {W : Type} {H : Host W}.

Definition sh (cmd : string) : M W CompletedProcess := subprocess_run cmd.

Definition has (cmd : string) : M W bool :=
  p <- shutil_which cmd ;;
  ret (match p with Some _ => true | None => false end).

(** Lines 20 to 35. *)
Definition collect_basics : M W Basics :=
  host <- platform_node ;;
  kernel <- platform_release ;;
  os_name <- try_except
               (text <- read_text "/etc/os-release" ;;
                lift (pretty_name (lines text)))
               (fun _ => ret "") ;;
  r <- sh Cmd.uptime ;;
  let uptime_out := strip (stdout r) in
  r <- sh Cmd.boot ;;
  let boot_out := strip (stdout r) in
  text <- read_text "/proc/loadavg" ;;
  '(l1, l5, l15, _rest) <- lift (unpack4 (firstn 4 (split text))) ;;
  ret (mkBasics host kernel os_name uptime_out boot_out l1 l5 l15).

(** Lines 38 to 44. *)
Definition collect_cpu : M W (option string) :=
  m <- has "mpstat" ;;
  if m : bool
  then r <- sh Cmd.mpstat ;; ret (or_none (strip (stdout r)))
  else r <- sh Cmd.top ;; ret (or_none (strip (stdout r))).

(** Lines 47 to 49: [int(r.stdout.strip() or 0)]. *)
Definition read_mem_kb (key : string) : M W Z :=
  r <- sh (Cmd.meminfo key) ;;
  let s := strip (stdout r) in
  if truthy s then lift (or_raise ValueError (int s)) else ret 0.

(** Lines 50 to 53. *)
Definition collect_memory : M W Memory :=
  mem_total <- read_mem_kb "MemTotal" ;;
  mem_avail <- read_mem_kb "MemAvailable" ;;
  let mem_used := mem_total - mem_avail in
  mem_used_pct <- lift (used_pct mem_used mem_total) ;;
  ret (mkMemory mem_total mem_avail mem_used mem_used_pct).

(** Lines 56 to 60. *)
Definition check_disk (args : Args) (failures : list string)
  : M W (Disk * list string) :=
  r <- sh Cmd.df ;;
  '(disk_fs, disk_size, disk_used, disk_avail, disk_use_pct, disk_mount) <-
    lift (unpack6 (df_fields (stdout r))) ;;
  disk_use_num <- lift (use_num disk_use_pct) ;;
  let d := mkDisk disk_fs disk_size disk_used disk_avail disk_use_pct
             disk_mount disk_use_num in
  if disk_use_num >? disk_threshold args
  then ret (d, (failures ++ [Msg.disk disk_use_pct (disk_threshold args)])%list)
  else ret (d, failures).

(** Lines 63 to 67. *)
Definition check_ping (args : Args) (failures : list string)
  : M W (string * list string) :=
  let ping_ok := "unknown" in
  p <- has "ping" ;;
  if p : bool
  then r <- sh (Cmd.ping (ping args)) ;;
       let ping_ok := if returncode r =? 0 then "true" else "false" in
       if String.eqb ping_ok "false"
       then ret (ping_ok, (failures ++ [Msg.ping (ping args)])%list)
       else ret (ping_ok, failures)
  else ret (ping_ok, failures).

(** Lines 72 to 74: the loop over [args.services.split()]. *)
Fixpoint services_loop (svcs : list string) (services_down : list string)
  : M W (list string) :=
  match svcs with
  | [] => ret services_down
  | svc :: rest =>
      r <- sh (Cmd.is_active svc) ;;
      if negb (returncode r =? 0)
      then services_loop rest (services_down ++ [svc])%list
      else services_loop rest services_down
  end.

(** Lines 70 to 76. *)
Definition check_services (args : Args) (failures : list string)
  : M W (list string * list string) :=
  let services_down := [] in
  s <- has "systemctl" ;;
  if s : bool
  then services_down <- services_loop (split (services args)) services_down ;;
       match services_down with
       | _ :: _ =>
           ret (services_down, (failures ++ [Msg.services services_down])%list)
       | [] => ret (services_down, failures)
       end
  else ret (services_down, failures).

(** Lines 79 to 85. *)
Definition collect_upgrades : M W PyVal :=
  let pkg_upgrades := PyNone in
  a <- has "apt-get" ;;
  if a : bool
  then r <- sh Cmd.apt ;;
       match int (strip (if truthy (stdout r) then stdout r else "0")) with
       | Some n => ret (PyInt n)
       | None => ret PyNone
       end
  else ret pkg_upgrades.

(** Lines 88 to 90. *)
Definition collect_docker : M W PyVal :=
  let docker := PyNone in
  d <- has "docker" ;;
  if d : bool
  then r <- sh Cmd.docker ;;
       ret (PyStr (if returncode r =? 0 then "running"
                   else "installed_not_running_or_no_perms"))
  else ret docker.

(** Lines 18 to 67: [main] up to the services. *)
Definition collect_before_services (args : Args) : M W Collected :=
  let failures := [] in
  b <- collect_basics ;;
  cpu <- collect_cpu ;;
  m <- collect_memory ;;
  '(d, failures) <- check_disk args failures ;;
  '(ping_ok, failures) <- check_ping args failures ;;
  ret (mkCollected b cpu m d ping_ok failures).

(** [main], after [args = p.parse_args()]. *)
Definition main (args : Args) : M W Exit :=
  c <- collect_before_services args ;;
  '(services_down, failures) <- check_services args (failures_so_far c) ;;
  pkg_upgrades <- collect_upgrades ;;
  docker <- collect_docker ;;
  let status := status_of failures in
  timestamp <- utc_timestamp ;;
  let data := report_data args timestamp (basics c) (cpu_usage c) (memory c)
                (disk c) (ping_ok c) services_down pkg_upgrades docker
                status failures in
  let out :=
    if String.eqb (format args) "json"
    then [JsonDump data]
    else [Line ("Ubuntu Health Check - " ++ timestamp);
          Line ("Status: " ++ status);
          JsonDump data] in
  ret (mkExit out data (if String.eqb status "healthy" then 0 else 1)).

End OnHost.
End Script.

(* ===================================================================== *)
(** ** The policy, as the specification words it *)
(* ===================================================================== *)

Module Policy.
Import PyStrOps.

(** Rule 1: disk usage above the threshold. *)
Definition disk_rule (u : Z) (used_pct : string) (t : Z) : list string :=
  if u >? t then [Msg.disk used_pct t] else [].

(** Rule 2: the ping classification is exactly [false]. *)
Definition ping_rule (ping_ok target : string) : list string :=
  if String.eqb ping_ok "false" then [Msg.ping target] else [].

(** Rule 3: some checked service is down. *)
Definition services_rule (down : list string) : list string :=
  match down with
  | [] => []
  | _ :: _ => [Msg.services down]
  end.

(** The three rules in their fixed order. *)
Definition evaluate (args : Args) (u : Z) (used_pct ping_ok : string)
    (down : list string) : list string :=
  (disk_rule u used_pct (disk_threshold args)
   ++ ping_rule ping_ok (ping args)
   ++ services_rule down)%list.

(** The rule a failure reason comes from, read off its fixed opening words. *)
Inductive Kind : Type := DiskFailure | PingFailure | ServicesFailure.

Definition kind_of (reason : string) : option Kind :=
  if startswith "Root disk usage " reason then Some DiskFailure
  else if startswith "Ping to " reason then Some PingFailure
  else if startswith "Services not active: " reason then Some ServicesFailure
  else None.

Definition is_kind (k : Kind) (reason : string) : bool :=
  match kind_of reason, k with
  | Some DiskFailure, DiskFailure => true
  | Some PingFailure, PingFailure => true
  | Some ServicesFailure, ServicesFailure => true
  | _, _ => false
  end.

Definition count_kind (k : Kind) (failures : list string) : nat :=
  List.length (filter (is_kind k) failures).

Section Queries.
Context {W : Type} {H : Host W}.

(** The active-state queries of the services [svcs], made one after the
    other in the order of [svcs]: each name with the exit code of its
    query. *)
Fixpoint queried_states (svcs : list string) : M W (list (string * Z)) :=
  match svcs with
  | [] => ret []
  | svc :: rest =>
      r <- Script.sh (Cmd.is_active svc) ;;
      states <- queried_states rest ;;
      ret ((svc, returncode r) :: states)
  end.

End Queries.

(** The names in [states] whose query did not answer "active" (exit code 0),
    in the order of [states]. *)
Definition not_active (states : list (string * Z)) : list string :=
  map fst (filter (fun p => negb (snd p =? 0)) states).

(** [round((total - avail) / total * 100, 1)] as Python computes it. *)
Definition rounded_pct (total_kb available_kb : Z) : PyExc + spec_float :=
  match PyFloatOps.truediv (total_kb - available_kb) total_kb with
  | inr q => inr (PyFloatOps.round1 (PyFloatOps.mul q (PyFloatOps.of_int 100)))
  | inl e => inl e
  end.

End Policy.

(* ===================================================================== *)
(** ** Reading a report *)
(* ===================================================================== *)

Module Report.
Import PyValOps.

Definition str_at (ks : list string) (data : PyVal) : option string :=
  match path ks data with
  | Some (PyStr s) => Some s
  | _ => None
  end.

Definition int_at (ks : list string) (data : PyVal) : option Z :=
  match path ks data with
  | Some (PyInt n) => Some n
  | _ => None
  end.

Fixpoint unstrs (l : list PyVal) : option (list string) :=
  match l with
  | [] => Some []
  | PyStr s :: l' => option_map (cons s) (unstrs l')
  | _ :: _ => None
  end.

Definition strs_at (ks : list string) (data : PyVal) : option (list string) :=
  match path ks data with
  | Some (PyList l) => unstrs l
  | _ => None
  end.

Definition status (data : PyVal) : option string := str_at ["status"] data.
Definition failures (data : PyVal) : option (list string) :=
  strs_at ["failures"] data.
Definition disk_used_pct (data : PyVal) : option PyVal :=
  path ["disk_root"; "used_pct"] data.
Definition disk_threshold_pct (data : PyVal) : option PyVal :=
  path ["disk_root"; "threshold_pct"] data.
Definition ping_ok (data : PyVal) : option string :=
  str_at ["network"; "ping_ok"] data.
Definition services_checked (data : PyVal) : option (list string) :=
  strs_at ["services"; "checked"] data.
Definition services_down (data : PyVal) : option (list string) :=
  strs_at ["services"; "down"] data.
Definition memory_used_pct (data : PyVal) : option PyVal :=
  path ["memory"; "used_pct"] data.
Definition memory_used_kb (data : PyVal) : option Z :=
  int_at ["memory"; "used_kb"] data.
Definition memory_total_kb (data : PyVal) : option Z :=
  int_at ["memory"; "total_kb"] data.

End Report.

(* ===================================================================== *)
(** ** The shape of a run that reaches [exit] *)
(* ===================================================================== *)

Module Trace.
Import Script Policy.

Section OnHost.
Context {W : Type} {H : Host W}.

(** The sections that ran before the services, each from the state the
    previous one left. *)
Variant Before (args : Args) (w : W) (c : Collected) (w' : W) : Prop :=
  | before (wb wc wm wd : W) (fs : list string)
      (Hbasics : collect_basics w = (inr (basics c), wb))
      (Hcpu : collect_cpu wb = (inr (cpu_usage c), wc))
      (Hmemory : collect_memory wc = (inr (memory c), wm))
      (Hdisk : check_disk args [] wm = (inr (disk c, fs), wd))
      (Hpingrun :
         check_ping args fs wd = (inr (ping_ok c, failures_so_far c), w')).

(** What [main] has in hand when it reaches [exit]: what it collected
    before the services, the services found down, and the report and exit
    code made of them. *)
Variant Returned (args : Args) (w : W) (ex : Exit) (w' : W) : Prop :=
  | returned (c : Collected) (w1 : W) (down failures : list string) (w2 : W)
      (pkg dock : PyVal) (ts : string)
      (Hbefore : collect_before_services args w = (inr c, w1))
      (Hsections : Before args w c w1)
      (Hservices :
         check_services args (failures_so_far c) w1 = (inr (down, failures), w2))
      (Hnum : use_num (disk_use_pct (disk c)) = inr (disk_use_num (disk c)))
      (Hping : ping_ok c = "unknown" \/ ping_ok c = "true" \/ ping_ok c = "false")
      (Hfailures :
         failures = evaluate args (disk_use_num (disk c)) (disk_use_pct (disk c))
                      (ping_ok c) down)
      (Hreport :
         report ex
         = report_data args ts (basics c) (cpu_usage c) (memory c) (disk c)
             (ping_ok c) down pkg dock (status_of failures) failures)
      (Hexit :
         exit_code ex
         = if String.eqb (status_of failures) "healthy" then 0 else 1)
      (Hprinted :
         printed ex
         = if String.eqb (format args) "json"
           then [JsonDump (report ex)]
           else [Line ("Ubuntu Health Check - " ++ ts);
                 Line ("Status: " ++ status_of failures);
                 JsonDump (report ex)]).

End OnHost.
End Trace.

(* ===================================================================== *)
(** ** Concrete hosts *)
(* ===================================================================== *)

Module Machines.

Definition nl : string := String (ascii_of_nat 10) EmptyString.

(** A host on which nothing changes while the script runs: the installed
    tools, the answer to each command, two files, the names and the clock. *)
Record Machine : Type := mkMachine {
  tools : list string;
  answer : string -> CompletedProcess;
  os_release : option string;
  loadavg : option string;
  node : string;
  release : string;
  clock : string
}.

Definition file_or_raise (f : option string) : PyExc + string :=
  match f with
  | Some text => inr text
  | None => inl OSError
  end.

#[global] Instance quiet : Host Machine := {|
  subprocess_run := fun cmd m => (inr (answer m cmd), m);
  shutil_which := fun cmd m =>
    (inr (if existsb (String.eqb cmd) (tools m)
          then Some ("/usr/bin/" ++ cmd) else None), m);
  read_text := fun p m =>
    (if String.eqb p "/etc/os-release" then file_or_raise (os_release m)
     else if String.eqb p "/proc/loadavg" then file_or_raise (loadavg m)
     else inl OSError, m);
  platform_node := fun m => (inr (node m), m);
  platform_release := fun m => (inr (release m), m);
  utc_timestamp := fun m => (inr (clock m), m)
|}.

Definition ok (out : string) : CompletedProcess := mkProc 0 out "".

(** The answers of a server whose root disk is [used] full, whose ping exits
    with [ping_rc], whose memory readings are [total] and [avail], and on
    which exactly the services of [inactive] are not active. *)
Definition answers (used : string) (ping_rc : Z) (total avail : string)
    (inactive : list string) (cmd : string) : CompletedProcess :=
  if String.eqb cmd Cmd.uptime then ok ("up 3 days, 4 hours" ++ nl)
  else if String.eqb cmd Cmd.boot then ok ("2025-01-07 09:12" ++ nl)
  else if String.eqb cmd Cmd.top then ok ("3.5" ++ nl)
  else if String.eqb cmd Cmd.mpstat then ok ("2.25" ++ nl)
  else if String.eqb cmd (Cmd.meminfo "MemTotal") then ok (total ++ nl)
  else if String.eqb cmd (Cmd.meminfo "MemAvailable") then ok (avail ++ nl)
  else if String.eqb cmd Cmd.df
       then ok ("/dev/sda1 50G 45G 5G " ++ used ++ " /" ++ nl)
  else if String.prefix "ping " cmd then mkProc ping_rc "" ""
  else if String.prefix "systemctl " cmd
       then mkProc (if existsb (fun s => String.eqb cmd (Cmd.is_active s)) inactive
                    then 3 else 0) "" ""
  else if String.eqb cmd Cmd.apt then ok ("4" ++ nl)
  else if String.eqb cmd Cmd.docker then ok "Server: Docker Engine"
  else mkProc 127 "" "not found".

Definition server (tools : list string) (used : string) (ping_rc : Z)
    (total avail : string) (inactive : list string) : Machine :=
  {| tools := tools;
     answer := answers used ping_rc total avail inactive;
     os_release := Some ("NAME=Ubuntu" ++ nl ++ "PRETTY_NAME=" ++ Cmd.dq
                         ++ "Ubuntu 22.04.4 LTS" ++ Cmd.dq ++ nl);
     loadavg := Some ("0.12 0.08 0.05 1/234 5678" ++ nl);
     node := "web01";
     release := "5.15.0-105-generic";
     clock := "2025-01-10T12:00:00Z" |}.

Definition all_tools : list string :=
  ["mpstat"; "ping"; "systemctl"; "apt-get"; "docker"].

Definition defaults : Args :=
  mkArgs 85 "8.8.8.8" "ssh systemd-journald cron" "json".

(** Scenario A of the specification: disk at 90%, everything else fine. *)
Definition scenario_a : Machine :=
  server all_tools "90%" 0 "16000000" "4000000" [].

(** Scenario B: ping fails. *)
Definition scenario_b : Machine :=
  server all_tools "50%" 1 "16000000" "4000000" [].

(** Scenario C: no ping, no apt-get, no docker. *)
Definition scenario_c : Machine :=
  server ["systemctl"] "50%" 0 "16000000" "4000000" [].

(** Scenario D: one of two services is down. *)
Definition scenario_d : Machine :=
  server all_tools "50%" 0 "16000000" "4000000" ["cron"].

(** Everything wrong at once, and a machine that reports no memory. *)
Definition scenario_all : Machine :=
  server all_tools "97%" 2 "0" "0" ["ssh"; "cron"].

(** df prints nothing; df prints a dash in the percentage column; the
    load-average file cannot be read. *)
Definition df_silent : Machine :=
  {| tools := all_tools;
     answer := fun cmd =>
       if String.eqb cmd Cmd.df then ok ""
       else answers "50%" 0 "16000000" "4000000" [] cmd;
     os_release := None;
     loadavg := Some ("0.12 0.08 0.05 1/234 5678" ++ nl);
     node := "web01";
     release := "5.15.0-105-generic";
     clock := "2025-01-10T12:00:00Z" |}.

Definition df_dash : Machine :=
  server all_tools "-" 0 "16000000" "4000000" [].

Definition no_loadavg : Machine :=
  {| tools := all_tools;
     answer := answers "50%" 0 "16000000" "4000000" [];
     os_release := None;
     loadavg := None;
     node := "web01";
     release := "5.15.0-105-generic";
     clock := "2025-01-10T12:00:00Z" |}.

(** What a run leaves to look at: status, failures, exit code. *)
Definition verdict (r : (PyExc + Exit) * Machine)
  : option (option string * option (list string) * Z) :=
  match fst r with
  | inr ex => Some (Report.status (report ex), Report.failures (report ex),
                   exit_code ex)
  | inl _ => None
  end.

(** The same server as [scenario_d] on another day: other tools installed,
    other memory figures, another uptime, another clock. *)
Definition scenario_d_later : Machine :=
  {| tools := ["ping"; "systemctl"];
     answer := fun cmd =>
       if String.eqb cmd Cmd.uptime then ok ("up 1 minute" ++ nl)
       else if String.eqb cmd Cmd.top then ok ("99.5" ++ nl)
       else if String.eqb cmd Cmd.apt then ok ("250" ++ nl)
       else answers "50%" 0 "8000000" "100000" ["cron"] cmd;
     os_release := None;
     loadavg := Some ("12.50 9.75 4.10 7/512 999" ++ nl);
     node := "web01";
     release := "6.8.0-31-generic";
     clock := "2025-02-11T03:30:00Z" |}.

(** A host on which services come and go while the script runs: its state
    is the list of the exit codes that its next systemctl queries will give;
    everything else is as on [scenario_c]. *)
Definition flapping_run (cmd : string) (codes : list Z)
  : (PyExc + CompletedProcess) * list Z :=
  if String.prefix "systemctl " cmd
  then match codes with
       | rc :: rest => (inr (mkProc rc "" ""), rest)
       | [] => (inr (mkProc 0 "" ""), [])
       end
  else (inr (answer scenario_c cmd), codes).

#[global] Instance flapping : Host (list Z) := {|
  subprocess_run := flapping_run;
  shutil_which := fun cmd codes => (fst (shutil_which cmd scenario_c), codes);
  read_text := fun p codes => (fst (read_text p scenario_c), codes);
  platform_node := fun codes => (inr (node scenario_c), codes);
  platform_release := fun codes => (inr (release scenario_c), codes);
  utc_timestamp := fun codes => (inr (clock scenario_c), codes)
|}.

(** The result of a run on a quiet machine, for the worked examples. *)
Definition exit_of (r : (PyExc + Exit) * Machine) : Exit :=
  match fst r with
  | inr ex => ex
  | inl _ => mkExit [] PyNone 1
  end.

End Machines.

(* ===================================================================== *)
(** ** Words, the shape of a report, and a bare host *)
(* ===================================================================== *)

Module Words.
Import PyStrOps.

(** Every character of [s] satisfies [p]. *)
Fixpoint all_chars (p : ascii -> bool) (s : string) : bool :=
  match s with
  | EmptyString => true
  | String c s' => p c && all_chars p s'
  end.

(** A word: not empty and free of white space, as [str.split()] yields. *)
Definition is_word (w : string) : bool :=
  truthy w && all_chars (fun c => negb (is_space c)) w.

End Words.

(** What a consumer of the printed JSON can rely on: the keys, their order
    and the kind of value under each. *)
Module Shape.
Import PyValOps.

Definition keys (v : PyVal) : list string :=
  match v with
  | PyDict d => map fst d
  | _ => []
  end.

Fixpoint same (l1 l2 : list string) : bool :=
  match l1, l2 with
  | [], [] => true
  | a :: l1', b :: l2' => String.eqb a b && same l1' l2'
  | _, _ => false
  end.

Definition is_str (v : PyVal) : bool :=
  match v with PyStr _ => true | _ => false end.

Definition is_int (v : PyVal) : bool :=
  match v with PyInt _ => true | _ => false end.

Definition is_strs (v : PyVal) : bool :=
  match v with PyList l => forallb is_str l | _ => false end.

Definition or_none (p : PyVal -> bool) (v : PyVal) : bool :=
  match v with PyNone => true | _ => p v end.

Definition one_of (l : list string) (v : PyVal) : bool :=
  match v with PyStr s => existsb (String.eqb s) l | _ => false end.

Definition float_or_zero (v : PyVal) : bool :=
  match v with PyFloat _ => true | PyInt 0 => true | _ => false end.

Definition holds (p : PyVal -> bool) (ks : list string) (data : PyVal) : bool :=
  match path ks data with
  | Some v => p v
  | None => false
  end.

Definition has_keys (names : list string) : PyVal -> bool :=
  fun v => same (keys v) names.

Definition report_ok (data : PyVal) : bool :=
  holds (has_keys ["timestamp"; "host"; "os"; "kernel"; "uptime"; "boot_time";
                   "loadavg"; "cpu_usage_pct"; "memory"; "disk_root"; "network";
                   "services"; "packages"; "docker"; "status"; "failures"]) [] data
  && holds is_str ["timestamp"] data
  && holds is_str ["host"] data
  && holds is_str ["os"] data
  && holds is_str ["kernel"] data
  && holds is_str ["uptime"] data
  && holds is_str ["boot_time"] data
  && holds (has_keys ["1m"; "5m"; "15m"]) ["loadavg"] data
  && holds is_str ["loadavg"; "1m"] data
  && holds is_str ["loadavg"; "5m"] data
  && holds is_str ["loadavg"; "15m"] data
  && holds (or_none is_str) ["cpu_usage_pct"] data
  && holds (has_keys ["used_pct"; "used_kb"; "total_kb"]) ["memory"] data
  && holds float_or_zero ["memory"; "used_pct"] data
  && holds is_int ["memory"; "used_kb"] data
  && holds is_int ["memory"; "total_kb"] data
  && holds (has_keys ["used_pct"; "size"; "avail"; "threshold_pct"])
       ["disk_root"] data
  && holds is_str ["disk_root"; "used_pct"] data
  && holds is_str ["disk_root"; "size"] data
  && holds is_str ["disk_root"; "avail"] data
  && holds is_int ["disk_root"; "threshold_pct"] data
  && holds (has_keys ["ping_host"; "ping_ok"]) ["network"] data
  && holds is_str ["network"; "ping_host"] data
  && holds (one_of ["true"; "false"; "unknown"]) ["network"; "ping_ok"] data
  && holds (has_keys ["checked"; "down"]) ["services"] data
  && holds is_strs ["services"; "checked"] data
  && holds is_strs ["services"; "down"] data
  && holds (has_keys ["upgrades_pending"]) ["packages"] data
  && holds (or_none is_int) ["packages"; "upgrades_pending"] data
  && holds (or_none (one_of ["running"; "installed_not_running_or_no_perms"]))
       ["docker"] data
  && holds (one_of ["healthy"; "unhealthy"]) ["status"] data
  && holds is_strs ["failures"] data.

End Shape.

Module Bare.
Import Machines.

(** A host with nothing on it but the kernel's load-average file: no tool is
    found, every command fails without output. *)
#[global] Instance bare : Host unit := {|
  subprocess_run := fun cmd u => (inr (mkProc 127 "" "not found"), u);
  shutil_which := fun cmd u => (inr None, u);
  read_text := fun p u =>
    (if String.eqb p "/proc/loadavg"
     then inr ("0.00 0.01 0.05 1/90 1234" ++ nl) else inl OSError, u);
  platform_node := fun u => (inr "", u);
  platform_release := fun u => (inr "5.10.0", u);
  utc_timestamp := fun u => (inr "1970-01-01T00:00:00Z", u)
|}.

(** The load-average file holds two figures only; df prints five columns. *)
Definition short_loadavg : Machine :=
  {| tools := all_tools;
     answer := answers "50%" 0 "16000000" "4000000" [];
     os_release := None;
     loadavg := Some ("0.12 0.08" ++ nl);
     node := "web01";
     release := "5.15.0-105-generic";
     clock := "2025-01-10T12:00:00Z" |}.

Definition df_five : Machine :=
  {| tools := all_tools;
     answer := fun cmd =>
       if String.eqb cmd Cmd.df then ok ("tmpfs 50G 45G 5G 90%" ++ nl)
       else answers "50%" 0 "16000000" "4000000" [] cmd;
     os_release := None;
     loadavg := Some ("0.12 0.08 0.05 1/234 5678" ++ nl);
     node := "web01";
     release := "5.15.0-105-generic";
     clock := "2025-01-10T12:00:00Z" |}.

End Bare.

(* ===================================================================== *)
(** ** Worked examples *)
(* ===================================================================== *)

Module PyStrTests.
Import PyStrOps.

Example split_words :
  split "  ssh systemd-journald   cron " = ["ssh"; "systemd-journald"; "cron"].
Proof. reflexivity. Qed.

Example split_blank : split "   " = [].
Proof. reflexivity. Qed.

Example strip_both : strip "  up 3 days  " = "up 3 days".
Proof. reflexivity. Qed.

Example rstrip_percent : rstrip_char "%" "90%" = "90".
Proof. reflexivity. Qed.

Example int_plain : int "42" = Some 42.
Proof. reflexivity. Qed.

Example int_signed : int " -7 " = Some (-7).
Proof. reflexivity. Qed.

Example int_underscore : int "1_000" = Some 1000.
Proof. reflexivity. Qed.

Example int_bad : int "4_" = None /\ int "_4" = None /\ int "" = None
                  /\ int "-" = None /\ int "1__0" = None /\ int "12kB" = None.
Proof. repeat split; reflexivity. Qed.

Example str_of_int_neg : str_of_int (-85) = "-85" /\ str_of_int 0 = "0".
Proof. split; reflexivity. Qed.

Example lines_keep_ends :
  lines ("a" ++ String "010" "b" ++ String "010" "")
  = [String "a" (String "010" ""); String "b" (String "010" "")].
Proof. reflexivity. Qed.

End PyStrTests.

Module PyFloatTests.
Import PyFloatOps Policy.

(** 12000000 of 16000000 kB used: 75.0 *)
Example pct_three_quarters :
  rounded_pct 16000000 4000000 = inr (S754_finite false 5277655813324800 (-46)).
Proof. vm_compute. reflexivity. Qed.

(** 2 of 3 used: 66.66666666666666 rounds to 66.7 *)
Example pct_two_thirds :
  rounded_pct 3 1 = inr (S754_finite false 4693595236650189 (-46)).
Proof. vm_compute. reflexivity. Qed.

(** [round(0.25, 1) == 0.2] and [round(0.75, 1) == 0.8]: ties go to even. *)
Example round1_ties :
  round1 (S754_finite false (2 ^ 52) (-54))
  = S754_finite false 7205759403792794 (-55)
  /\ round1 (S754_finite false (3 * 2 ^ 51) (-53))
     = S754_finite false 7205759403792794 (-53).
Proof. vm_compute. split; reflexivity. Qed.

(** [0 / -5 == -0.0], [1 / 0] and [10**320 / 1] raise. *)
Example truediv_edges :
  truediv 0 (-5) = inr (S754_zero true)
  /\ truediv 1 0 = inl ZeroDivisionError
  /\ truediv (10 ^ 320) 1 = inl OverflowError.
Proof. vm_compute. repeat split; reflexivity. Qed.

End PyFloatTests.

Module Scenarios.
Import Machines.

Example run_scenario_a :
  verdict (Script.main defaults scenario_a)
  = Some (Some "unhealthy", Some ["Root disk usage 90% exceeds 85%"], 1).
Proof. vm_compute. reflexivity. Qed.

Example run_scenario_b :
  verdict (Script.main (mkArgs 85 "8.8.8.8" "ssh cron" "json") scenario_b)
  = Some (Some "unhealthy", Some ["Ping to 8.8.8.8 failed"], 1).
Proof. vm_compute. reflexivity. Qed.

Example run_scenario_c :
  verdict (Script.main defaults scenario_c) = Some (Some "healthy", Some [], 0).
Proof. vm_compute. reflexivity. Qed.

Example run_scenario_c_absent :
  match fst (Script.main defaults scenario_c) with
  | inr ex => PyValOps.path ["packages"; "upgrades_pending"] (report ex) = Some PyNone
              /\ PyValOps.path ["docker"] (report ex) = Some PyNone
              /\ Report.ping_ok (report ex) = Some "unknown"
  | inl _ => False
  end.
Proof. vm_compute. repeat split. Qed.

Example run_scenario_d :
  verdict (Script.main (mkArgs 85 "8.8.8.8" "ssh cron" "text") scenario_d)
  = Some (Some "unhealthy", Some ["Services not active: cron"], 1).
Proof. vm_compute. reflexivity. Qed.

Example run_scenario_all :
  verdict (Script.main defaults scenario_all)
  = Some (Some "unhealthy",
          Some ["Root disk usage 97% exceeds 85%"; "Ping to 8.8.8.8 failed";
                "Services not active: ssh cron"], 1).
Proof. vm_compute. reflexivity. Qed.

(** Without df output the percentage is the empty string and counts as 0. *)
Example run_df_silent :
  verdict (Script.main defaults df_silent) = Some (Some "healthy", Some [], 0)
  /\ Report.disk_used_pct (report (exit_of (Script.main defaults df_silent)))
     = Some (PyStr "").
Proof. vm_compute. split; reflexivity. Qed.

(** A percentage column that is not a number, or an unreadable load-average
    file, ends the run with an exception: no report. *)
Example run_df_dash : fst (Script.main defaults df_dash) = inl ValueError.
Proof. vm_compute. reflexivity. Qed.

Example run_no_loadavg : fst (Script.main defaults no_loadavg) = inl OSError.
Proof. vm_compute. reflexivity. Qed.

(** The same name checked twice is queried twice; only the second query
    found it down. *)
Example run_flapping :
  match fst (Script.main (mkArgs 85 "8.8.8.8" "ssh cron ssh" "json") [0; 0; 3]) with
  | inr ex => Report.services_down (report ex) = Some ["ssh"]
              /\ Report.failures (report ex) = Some ["Services not active: ssh"]
  | inl _ => False
  end.
Proof. vm_compute. split; reflexivity. Qed.

End Scenarios.

(* ===================================================================== *)
(** ** Running a computation: inversion of a run that returned *)
(* ===================================================================== *)

Section Runs.
Context {W : Type}.

Lemma bind_returns {A B : Type} (m : M W A) (f : A -> M W B) w b w' :
  bind m f w = (inr b, w') ->
  exists a w1, m w = (inr a, w1) /\ f a w1 = (inr b, w').
Proof.
  unfold bind. destruct (m w) as [[e | a] w1]; intros E.
  - discriminate E.
  - exists a, w1. split; [reflexivity | exact E].
Qed.

Lemma bind_run {A B : Type} (m : M W A) (f : A -> M W B) w a w1 :
  m w = (inr a, w1) -> bind m f w = f a w1.
Proof. unfold bind. intros ->. reflexivity. Qed.

Lemma ret_returns {A : Type} (a b : A) (w w' : W) :
  ret a w = (inr b, w') -> a = b /\ w = w'.
Proof. unfold ret. intros E. inversion E. split; reflexivity. Qed.

Lemma lift_returns {A : Type} (r : PyExc + A) (b : A) (w w' : W) :
  lift r w = (inr b, w') -> r = inr b /\ w = w'.
Proof. unfold lift. intros E. inversion E. split; reflexivity. Qed.

End Runs.

(** Take one step of a run that returned apart. *)
Ltac run_leaf R :=
  cbv beta iota in R;
  lazymatch type of R with
  | ret _ _ = (inr _, _) => unfold ret in R; inversion R; subst; clear R
  | lift _ _ = (inr _, _) => apply lift_returns in R; destruct R as [R ?]; subst
  | _ => idtac
  end.

Ltac run_step E :=
  cbv beta iota in E;
  lazymatch type of E with
  | bind _ _ _ = (inr _, _) =>
      let a := fresh "a" in
      let w := fresh "w" in
      let R := fresh "R" in
      apply bind_returns in E; destruct E as (a & w & R & E);
      run_leaf R; cbv beta iota in E
  | _ => run_leaf E
  end.

(* ===================================================================== *)
(** ** The sections of [main], one by one *)
(* ===================================================================== *)

Module Sections.
Import PyStrOps PyValOps Script Policy.

Section OnHost.
Context {W : Type} {H : Host W}.

Lemma queried_states_names svcs : forall w states w',
  queried_states svcs w = (inr states, w') -> map fst states = svcs.
Proof.
  induction svcs as [| svc rest IH]; intros w states w' E; simpl in E.
  - run_step E. reflexivity.
  - run_step E. run_step E. run_step E. simpl. f_equal. eapply IH; eassumption.
Qed.

Lemma services_loop_states svcs : forall acc w down w',
  services_loop svcs acc w = (inr down, w') ->
  exists states,
    queried_states svcs w = (inr states, w')
    /\ down = (acc ++ not_active states)%list.
Proof.
  induction svcs as [| svc rest IH]; intros acc w down w' E; simpl in E.
  - run_step E. exists []. split; [reflexivity | ].
    unfold not_active. simpl. now rewrite app_nil_r.
  - run_step E.
    destruct (returncode a =? 0) eqn:Erc; simpl in E;
      apply IH in E; destruct E as (states & Eq & ->);
      exists ((svc, returncode a) :: states); simpl;
      rewrite (bind_run _ _ _ _ _ R), (bind_run _ _ _ _ _ Eq);
      (split; [reflexivity | ]);
      unfold not_active; simpl; rewrite Erc; simpl.
    + reflexivity.
    + now rewrite <- app_assoc.
Qed.

Lemma check_disk_returns args failures w d failures' w' :
  check_disk args failures w = (inr (d, failures'), w') ->
  use_num (disk_use_pct d) = inr (disk_use_num d)
  /\ failures' = (failures ++ disk_rule (disk_use_num d) (disk_use_pct d)
                                        (disk_threshold args))%list.
Proof.
  unfold check_disk. intros E.
  run_step E. run_step E. destruct a0 as [[[[[fs sz] us] av] pct] mnt].
  run_step E. unfold disk_rule.
  destruct (a0 >? disk_threshold args) eqn:Eu; run_step E; simpl; rewrite Eu;
    (split; [assumption | ]).
  - reflexivity.
  - now rewrite app_nil_r.
Qed.

Lemma unpack6_returns l a b c d e f :
  unpack6 l = inr (a, b, c, d, e, f) -> l = [a; b; c; d; e; f].
Proof.
  destruct l as [| x1 [| x2 [| x3 [| x4 [| x5 [| x6 [| x7 l]]]]]]]; simpl;
    intros E; try discriminate E.
  now inversion E.
Qed.

Lemma check_disk_fields args failures w d failures' w' :
  check_disk args failures w = (inr (d, failures'), w') ->
  exists r : CompletedProcess,
    sh Cmd.df w = (inr r, w')
    /\ df_fields (stdout r)
       = [disk_fs d; disk_size d; disk_used d; disk_avail d; disk_use_pct d;
          disk_mount d].
Proof.
  unfold check_disk. intros E.
  run_step E. run_step E. destruct a0 as [[[[[fs sz] us] av] pct] mnt].
  run_step E. exists a.
  destruct (a0 >? disk_threshold args); run_step E; simpl;
    (split; [assumption | now apply unpack6_returns]).
Qed.

Lemma has_returns cmd w b w' :
  has cmd w = (inr b, w') ->
  exists p, shutil_which cmd w = (inr p, w')
            /\ b = match p with Some _ => true | None => false end.
Proof.
  unfold has. intros E. run_step E. run_step E.
  exists a. split; [assumption | reflexivity].
Qed.

Lemma check_ping_returns args failures w ping_ok failures' w' :
  check_ping args failures w = (inr (ping_ok, failures'), w') ->
  (ping_ok = "unknown" \/ ping_ok = "true" \/ ping_ok = "false")
  /\ failures' = (failures ++ ping_rule ping_ok (ping args))%list.
Proof.
  unfold check_ping. intros E. run_step E. destruct a.
  - run_step E. destruct (returncode a =? 0); simpl in E; run_step E;
      unfold ping_rule; simpl.
    + split; [tauto | now rewrite app_nil_r].
    + split; [tauto | reflexivity].
  - run_step E. unfold ping_rule; simpl. split; [tauto | now rewrite app_nil_r].
Qed.

Lemma check_services_returns args failures w down failures' w' :
  check_services args failures w = (inr (down, failures'), w') ->
  failures' = (failures ++ services_rule down)%list.
Proof.
  unfold check_services. intros E. run_step E. destruct a.
  - run_step E. destruct a as [| svc more]; run_step E; simpl;
      [now rewrite app_nil_r | reflexivity].
  - run_step E. simpl. now rewrite app_nil_r.
Qed.

End OnHost.
End Sections.

(* ===================================================================== *)
(** ** A whole run *)
(* ===================================================================== *)

Module Run.
Import PyStrOps PyValOps Script Policy Trace Sections.

Lemma unstrs_strs (l : list string) : Report.unstrs (map PyStr l) = Some l.
Proof.
  induction l as [| s l IH]; simpl; [reflexivity | ].
  rewrite IH. reflexivity.
Qed.

Section Fields.
Variables (args : Args) (ts : string) (b : Basics) (cpu : option string)
          (m : Memory) (d : Disk) (ping_ok : string) (down : list string)
          (pkg dock : PyVal) (status : string) (failures : list string).

Local Abbreviation data :=
  (report_data args ts b cpu m d ping_ok down pkg dock status failures).

Lemma status_field : Report.status data = Some status.
Proof. reflexivity. Qed.

Lemma failures_field : Report.failures data = Some failures.
Proof. unfold Report.failures, Report.strs_at. simpl. apply unstrs_strs. Qed.

Lemma disk_used_pct_field : Report.disk_used_pct data = Some (PyStr (disk_use_pct d)).
Proof. reflexivity. Qed.

Lemma disk_threshold_pct_field :
  Report.disk_threshold_pct data = Some (PyInt (disk_threshold args)).
Proof. reflexivity. Qed.

Lemma ping_ok_field : Report.ping_ok data = Some ping_ok.
Proof. reflexivity. Qed.

Lemma services_checked_field :
  Report.services_checked data = Some (split (services args)).
Proof. unfold Report.services_checked, Report.strs_at. simpl. apply unstrs_strs. Qed.

Lemma services_down_field : Report.services_down data = Some down.
Proof. unfold Report.services_down, Report.strs_at. simpl. apply unstrs_strs. Qed.

Lemma memory_fields :
  Report.memory_used_pct data = Some (mem_used_pct m)
  /\ Report.memory_used_kb data = Some (mem_used m)
  /\ Report.memory_total_kb data = Some (mem_total m).
Proof. repeat split. Qed.

End Fields.

Section OnHost.
Context {W : Type} {H : Host W}.

Lemma collect_before_services_returns args w c w' :
  collect_before_services args w = (inr c, w') -> Before args w c w'.
Proof.
  unfold collect_before_services. intros E.
  run_step E. run_step E. run_step E. run_step E. destruct a2 as [d fs].
  run_step E. destruct a2 as [p fs']. run_step E. simpl.
  econstructor; simpl; eassumption.
Qed.

Lemma before_failures args w c w' :
  Before args w c w' ->
  use_num (disk_use_pct (disk c)) = inr (disk_use_num (disk c))
  /\ (ping_ok c = "unknown" \/ ping_ok c = "true" \/ ping_ok c = "false")
  /\ failures_so_far c
     = (disk_rule (disk_use_num (disk c)) (disk_use_pct (disk c))
                  (disk_threshold args)
        ++ ping_rule (ping_ok c) (ping args))%list.
Proof.
  intros [wb wc wm wd fs Hbasics Hcpu Hmemory Hdisk Hpingrun].
  apply check_disk_returns in Hdisk. destruct Hdisk as [Hnum ->].
  apply check_ping_returns in Hpingrun. destruct Hpingrun as [Hping ->].
  repeat split; assumption.
Qed.

Lemma main_returns args w ex w' :
  main args w = (inr ex, w') -> Returned args w ex w'.
Proof.
  unfold main. intros E.
  run_step E. run_step E. destruct a0 as [down failures].
  run_step E. run_step E. run_step E. run_step E.
  pose proof (collect_before_services_returns _ _ _ _ R) as Hsections.
  destruct (before_failures _ _ _ _ Hsections) as (Hnum & Hping & Hf).
  econstructor; try eassumption; try reflexivity.
  apply check_services_returns in R0. rewrite R0, Hf.
  unfold evaluate. now rewrite <- app_assoc.
Qed.

End OnHost.
End Run.

(* ===================================================================== *)
(** ** Properties of the report *)
(* ===================================================================== *)

Import PyStrOps PyValOps Policy Machines.

Lemma status_of_cases (failures : list string) :
  (failures = [] /\ Script.status_of failures = "healthy")
  \/ (failures <> [] /\ Script.status_of failures = "unhealthy").
Proof.
  destruct failures as [| f fs]; [left | right]; split;
    try reflexivity; discriminate.
Qed.

Lemma kind_of_disk pct t : kind_of (Msg.disk pct t) = Some DiskFailure.
Proof. reflexivity. Qed.

Lemma kind_of_ping target : kind_of (Msg.ping target) = Some PingFailure.
Proof. reflexivity. Qed.

Lemma kind_of_services down : kind_of (Msg.services down) = Some ServicesFailure.
Proof. reflexivity. Qed.

Lemma evaluate_nil args u pct ping_ok down :
  evaluate args u pct ping_ok down = []
  <-> ~ (u > disk_threshold args \/ ping_ok = "false" \/ down <> []).
Proof.
  unfold evaluate, disk_rule, ping_rule, services_rule.
  destruct (Z.gtb_spec u (disk_threshold args)) as [Hu | Hu];
    destruct (String.eqb_spec ping_ok "false") as [Hp | Hp];
    destruct down as [| s down]; simpl; split; intros Hx;
    first [ discriminate Hx
          | reflexivity
          | exfalso; apply Hx;
            first [ left; lia | right; left; assumption
                  | right; right; discriminate ]
          | intros [Hc | [Hc | Hc]];
            first [ lia | contradiction | congruence ] ].
Qed.

(** Open a run of [main] that returned. *)
Ltac main_inv E :=
  destruct (Run.main_returns _ _ _ _ E)
    as [c w1 down failures w2 pkg dock ts Hbefore Hsections Hservices Hnum
        Hping Hfailures Hreport Hexit Hprinted];
  destruct Hsections as [wb wc wm wd fs Hbasics Hcpu Hmemory Hdisk Hpingrun].

(** C2.  In every report, [status] is "unhealthy" exactly when [failures] is
    not empty, and "healthy" exactly when [failures] is empty. *)
Theorem status_unhealthy_iff_failures
    (W : Type) (H : Host W) (args : Args) (w w' : W) (ex : Exit) :
  Script.main args w = (inr ex, w') ->
  exists status failures,
    Report.status (report ex) = Some status
    /\ Report.failures (report ex) = Some failures
    /\ (status = "unhealthy" <-> failures <> [])
    /\ (status = "healthy" <-> failures = []).
Proof.
  intros E. main_inv E.
  exists (Script.status_of failures), failures. rewrite Hreport.
  split; [apply Run.status_field | ].
  split; [apply Run.failures_field | ].
  destruct (status_of_cases failures) as [[Hf ->] | [Hf ->]]; subst;
    repeat split; intros; try discriminate; try reflexivity;
    try assumption; try contradiction.
Qed.

Lemma status_unhealthy_iff_failures_witness :
  exists status failures,
    Report.status (report (exit_of (Script.main defaults scenario_a)))
    = Some status
    /\ Report.failures (report (exit_of (Script.main defaults scenario_a)))
       = Some failures
    /\ (status = "unhealthy" <-> failures <> [])
    /\ (status = "healthy" <-> failures = []).
Proof.
  apply (status_unhealthy_iff_failures _ _ defaults
           scenario_a scenario_a).
  vm_compute. reflexivity.
Defined.

(** C3.  A run that prints a report exits with 0 when the report's status
    is "healthy" and with 1 when it is "unhealthy"; there is no third case. *)
Theorem exit_code_follows_status
    (W : Type) (H : Host W) (args : Args) (w w' : W) (ex : Exit) :
  Script.main args w = (inr ex, w') ->
  exists status,
    Report.status (report ex) = Some status
    /\ In (JsonDump (report ex)) (printed ex)
    /\ ((status = "healthy" /\ exit_code ex = 0)
        \/ (status = "unhealthy" /\ exit_code ex = 1)).
Proof.
  intros E. main_inv E.
  exists (Script.status_of failures). rewrite Hreport at 1.
  split; [apply Run.status_field | ].
  split.
  - rewrite Hprinted. destruct (String.eqb (format args) "json"); simpl; auto.
  - rewrite Hexit.
    destruct (status_of_cases failures) as [[_ ->] | [_ ->]]; simpl; auto.
Qed.

Lemma exit_code_follows_status_witness :
  exists status,
    Report.status (report (exit_of (Script.main defaults scenario_c)))
    = Some status
    /\ In (JsonDump (report (exit_of (Script.main defaults scenario_c))))
          (printed (exit_of (Script.main defaults scenario_c)))
    /\ ((status = "healthy"
         /\ exit_code (exit_of (Script.main defaults scenario_c)) = 0)
        \/ (status = "unhealthy"
            /\ exit_code (exit_of (Script.main defaults scenario_c)) = 1)).
Proof.
  apply (exit_code_follows_status _ _ defaults
           scenario_c scenario_c).
  vm_compute. reflexivity.
Defined.

(** C1.  In every report, [status] is "unhealthy" exactly when the root-disk
    percentage [u] (the integer read from [disk_root.used_pct]) exceeds the
    threshold [t] ([disk_root.threshold_pct], the configured threshold), or
    [network.ping_ok] is "false", or [services.down] is not empty; it is
    "healthy" in every other case, whatever else was collected. *)
Theorem status_disjunctive_policy
    (W : Type) (H : Host W) (args : Args) (w w' : W) (ex : Exit) :
  Script.main args w = (inr ex, w') ->
  exists (used_pct : string) (u t : Z) (ping_ok : string)
         (down : list string) (status : string),
    Report.disk_used_pct (report ex) = Some (PyStr used_pct)
    /\ Script.use_num used_pct = inr u
    /\ Report.disk_threshold_pct (report ex) = Some (PyInt t)
    /\ t = disk_threshold args
    /\ Report.ping_ok (report ex) = Some ping_ok
    /\ Report.services_down (report ex) = Some down
    /\ Report.status (report ex) = Some status
    /\ (status = "unhealthy" <-> (u > t \/ ping_ok = "false" \/ down <> []))
    /\ (status = "healthy" <-> ~ (u > t \/ ping_ok = "false" \/ down <> [])).
Proof.
  intros E. main_inv E.
  exists (disk_use_pct (disk c)), (disk_use_num (disk c)), (disk_threshold args),
         (ping_ok c), down, (Script.status_of failures).
  rewrite Hreport.
  split; [apply Run.disk_used_pct_field | ].
  split; [exact Hnum | ].
  split; [apply Run.disk_threshold_pct_field | ].
  split; [reflexivity | ].
  split; [apply Run.ping_ok_field | ].
  split; [apply Run.services_down_field | ].
  split; [apply Run.status_field | ].
  pose proof (evaluate_nil args (disk_use_num (disk c)) (disk_use_pct (disk c))
                (ping_ok c) down) as Hnil.
  rewrite <- Hfailures in Hnil.
  destruct (status_of_cases failures) as [[Hf ->] | [Hf ->]]; split; split;
    intros Hx; try discriminate Hx; try reflexivity.
  - exfalso. apply (proj1 Hnil Hf). exact Hx.
  - apply Hnil. exact Hf.
  - destruct (Z.gtb_spec (disk_use_num (disk c)) (disk_threshold args)) as [Hu | Hu];
      [left; lia | ].
    destruct (String.eqb_spec (ping_ok c) "false") as [Hp | Hp];
      [right; left; exact Hp | ].
    destruct down as [| s down]; [ | right; right; discriminate].
    exfalso. apply Hf. apply Hnil. intros [Hc | [Hc | Hc]];
      [lia | contradiction | congruence].
  - exfalso. apply Hf. apply Hnil. exact Hx.
Qed.

Lemma status_disjunctive_policy_witness :
  exists (used_pct : string) (u t : Z) (ping_ok : string)
         (down : list string) (status : string),
    Report.disk_used_pct
      (report (exit_of (Script.main defaults scenario_d)))
    = Some (PyStr used_pct)
    /\ Script.use_num used_pct = inr u
    /\ Report.disk_threshold_pct
         (report (exit_of (Script.main defaults scenario_d)))
       = Some (PyInt t)
    /\ t = disk_threshold defaults
    /\ Report.ping_ok
         (report (exit_of (Script.main defaults scenario_d)))
       = Some ping_ok
    /\ Report.services_down
         (report (exit_of (Script.main defaults scenario_d)))
       = Some down
    /\ Report.status
         (report (exit_of (Script.main defaults scenario_d)))
       = Some status
    /\ (status = "unhealthy" <-> (u > t \/ ping_ok = "false" \/ down <> []))
    /\ (status = "healthy" <-> ~ (u > t \/ ping_ok = "false" \/ down <> [])).
Proof.
  apply (status_disjunctive_policy _ _ defaults
           scenario_d scenario_d).
  vm_compute. reflexivity.
Defined.

Lemma evaluate_kinds args u pct ping_ok down :
  Forall (fun f => is_kind DiskFailure f = true)
         (disk_rule u pct (disk_threshold args))
  /\ Forall (fun f => is_kind PingFailure f = true)
            (ping_rule ping_ok (ping args))
  /\ Forall (fun f => is_kind ServicesFailure f = true) (services_rule down).
Proof.
  unfold disk_rule, ping_rule, services_rule.
  destruct (u >? disk_threshold args), (String.eqb ping_ok "false"),
    down as [| s down]; repeat split; repeat constructor.
Qed.

(** C7.  The failures of a report are the disk entry (if any), then the ping
    entry (if any), then the services entry (if any): rule order. *)
Theorem failures_in_rule_order
    (W : Type) (H : Host W) (args : Args) (w w' : W) (ex : Exit) :
  Script.main args w = (inr ex, w') ->
  exists (failures from_disk from_ping from_services : list string),
    Report.failures (report ex) = Some failures
    /\ failures = (from_disk ++ from_ping ++ from_services)%list
    /\ Forall (fun f => is_kind DiskFailure f = true) from_disk
    /\ Forall (fun f => is_kind PingFailure f = true) from_ping
    /\ Forall (fun f => is_kind ServicesFailure f = true) from_services.
Proof.
  intros E. main_inv E.
  exists failures,
    (disk_rule (disk_use_num (disk c)) (disk_use_pct (disk c)) (disk_threshold args)),
    (ping_rule (ping_ok c) (ping args)), (services_rule down).
  rewrite Hreport.
  split; [apply Run.failures_field | ].
  split; [exact Hfailures | ].
  apply evaluate_kinds.
Qed.

Lemma failures_in_rule_order_witness :
  exists (failures from_disk from_ping from_services : list string),
    Report.failures
      (report (exit_of (Script.main defaults scenario_all)))
    = Some failures
    /\ failures = (from_disk ++ from_ping ++ from_services)%list
    /\ Forall (fun f => is_kind DiskFailure f = true) from_disk
    /\ Forall (fun f => is_kind PingFailure f = true) from_ping
    /\ Forall (fun f => is_kind ServicesFailure f = true) from_services.
Proof.
  apply (failures_in_rule_order _ _ defaults
           scenario_all scenario_all).
  vm_compute. reflexivity.
Defined.

Lemma is_kind_disk k pct t :
  is_kind k (Msg.disk pct t) = match k with DiskFailure => true | _ => false end.
Proof. destruct k; reflexivity. Qed.

Lemma is_kind_ping k target :
  is_kind k (Msg.ping target) = match k with PingFailure => true | _ => false end.
Proof. destruct k; reflexivity. Qed.

Lemma is_kind_services k down :
  is_kind k (Msg.services down)
  = match k with ServicesFailure => true | _ => false end.
Proof. destruct k; reflexivity. Qed.

Lemma count_kind_app k l1 l2 :
  count_kind k (l1 ++ l2) = (count_kind k l1 + count_kind k l2)%nat.
Proof. unfold count_kind. rewrite filter_app. apply length_app. Qed.

Lemma count_kind_disk_rule k u pct t :
  count_kind k (disk_rule u pct t)
  = match k with
    | DiskFailure => if u >? t then 1%nat else 0%nat
    | _ => 0%nat
    end.
Proof.
  unfold disk_rule, count_kind.
  destruct (u >? t); simpl; [rewrite is_kind_disk | ]; destruct k; reflexivity.
Qed.

Lemma count_kind_ping_rule k ping_ok target :
  count_kind k (ping_rule ping_ok target)
  = match k with
    | PingFailure => if String.eqb ping_ok "false" then 1%nat else 0%nat
    | _ => 0%nat
    end.
Proof.
  unfold ping_rule, count_kind.
  destruct (String.eqb ping_ok "false"); simpl; [rewrite is_kind_ping | ];
    destruct k; reflexivity.
Qed.

Lemma count_kind_services_rule k down :
  count_kind k (services_rule down)
  = match k with
    | ServicesFailure => match down with [] => 0%nat | _ :: _ => 1%nat end
    | _ => 0%nat
    end.
Proof.
  unfold services_rule, count_kind.
  destruct down as [| s down]; simpl; [ | rewrite is_kind_services ];
    destruct k; reflexivity.
Qed.

Lemma count_kind_evaluate k args u pct ping_ok down :
  count_kind k (evaluate args u pct ping_ok down)
  = match k with
    | DiskFailure => if u >? disk_threshold args then 1%nat else 0%nat
    | PingFailure => if String.eqb ping_ok "false" then 1%nat else 0%nat
    | ServicesFailure => match down with [] => 0%nat | _ :: _ => 1%nat end
    end.
Proof.
  unfold evaluate. rewrite !count_kind_app, count_kind_disk_rule,
    count_kind_ping_rule, count_kind_services_rule.
  destruct k; lia.
Qed.

Lemma length_evaluate args u pct ping_ok down :
  List.length (evaluate args u pct ping_ok down)
  = (count_kind DiskFailure (evaluate args u pct ping_ok down)
     + count_kind PingFailure (evaluate args u pct ping_ok down)
     + count_kind ServicesFailure (evaluate args u pct ping_ok down))%nat.
Proof.
  rewrite !count_kind_evaluate.
  unfold evaluate, disk_rule, ping_rule, services_rule.
  destruct (u >? disk_threshold args), (String.eqb ping_ok "false"),
    down as [| s down]; reflexivity.
Qed.

(** C10.  A report holds at most three failures: at most one from the disk
    rule, at most one from the ping rule, at most one from the services
    rule, and nothing else. *)
Theorem at_most_three_failures
    (W : Type) (H : Host W) (args : Args) (w w' : W) (ex : Exit) :
  Script.main args w = (inr ex, w') ->
  exists failures : list string,
    Report.failures (report ex) = Some failures
    /\ (List.length failures <= 3)%nat
    /\ (count_kind DiskFailure failures <= 1)%nat
    /\ (count_kind PingFailure failures <= 1)%nat
    /\ (count_kind ServicesFailure failures <= 1)%nat
    /\ List.length failures
       = (count_kind DiskFailure failures + count_kind PingFailure failures
          + count_kind ServicesFailure failures)%nat.
Proof.
  intros E. main_inv E. exists failures. rewrite Hreport.
  split; [apply Run.failures_field | ].
  rewrite Hfailures, length_evaluate, !count_kind_evaluate.
  destruct (disk_use_num (disk c) >? disk_threshold args),
    (String.eqb (ping_ok c) "false"), down as [| s down]; simpl; lia.
Qed.

Lemma at_most_three_failures_witness :
  exists failures : list string,
    Report.failures (report (exit_of (Script.main defaults scenario_all)))
    = Some failures
    /\ (List.length failures <= 3)%nat
    /\ (count_kind DiskFailure failures <= 1)%nat
    /\ (count_kind PingFailure failures <= 1)%nat
    /\ (count_kind ServicesFailure failures <= 1)%nat
    /\ List.length failures
       = (count_kind DiskFailure failures + count_kind PingFailure failures
          + count_kind ServicesFailure failures)%nat.
Proof.
  apply (at_most_three_failures _ _ defaults scenario_all scenario_all).
  vm_compute. reflexivity.
Defined.

Section PingRule.
Context {W : Type} {H : Host W}.

Lemma check_ping_tool args failures w ping_ok failures' w' :
  Script.check_ping args failures w = (inr (ping_ok, failures'), w') ->
  exists (tool : bool) (w1 : W),
    Script.has "ping" w = (inr tool, w1)
    /\ (tool = false <-> ping_ok = "unknown").
Proof.
  unfold Script.check_ping. intros E. run_step E. exists a, w0.
  split; [exact R | ]. destruct a.
  - run_step E. destruct (returncode a =? 0); simpl in E; run_step E;
      split; discriminate.
  - run_step E. split; reflexivity.
Qed.

Lemma ping_rule_cases ping_ok target :
  (ping_ok = "false" /\ ping_rule ping_ok target = [Msg.ping target])
  \/ (ping_ok <> "false" /\ ping_rule ping_ok target = []).
Proof.
  unfold ping_rule. destruct (String.eqb_spec ping_ok "false"); auto.
Qed.

Lemma ping_reason_in_evaluate args u pct ping_ok down :
  In (Msg.ping (ping args)) (evaluate args u pct ping_ok down)
  <-> ping_ok = "false".
Proof.
  unfold evaluate. rewrite !in_app_iff. split.
  - intros [Hin | [Hin | Hin]].
    + unfold disk_rule in Hin. destruct (u >? disk_threshold args); simpl in Hin;
        [destruct Hin as [Heq | []] | contradiction].
      apply (f_equal kind_of) in Heq. discriminate Heq.
    + destruct (ping_rule_cases ping_ok (ping args)) as [[Hp _] | [_ Hr]];
        [exact Hp | rewrite Hr in Hin; contradiction].
    + unfold services_rule in Hin. destruct down as [| s down]; simpl in Hin;
        [contradiction | destruct Hin as [Heq | []] ].
      apply (f_equal kind_of) in Heq. discriminate Heq.
  - intros ->. right. left. simpl. left. reflexivity.
Qed.

End PingRule.

(** C4.  The ping section appends "Ping to {target} failed" exactly when it
    classified the ping as "false"; a classification "unknown", which is the
    one given when the ping tool is absent, leaves [failures] as it was, for
    every target.  In the report: the ping reason is among the failures
    exactly when [network.ping_ok] is "false", once, and no failure comes
    from the ping rule otherwise. *)
Theorem ping_failure_exactly_when_false (W : Type) (H : Host W) (args : Args) :
  (forall (failures : list string) (w : W) (ping_ok : string)
          (failures' : list string) (w' : W),
      Script.check_ping args failures w = (inr (ping_ok, failures'), w') ->
      (exists (tool : bool) (w1 : W),
          Script.has "ping" w = (inr tool, w1)
          /\ (tool = false <-> ping_ok = "unknown"))
      /\ (ping_ok = "unknown" -> failures' = failures)
      /\ (ping_ok = "false" ->
          failures' = (failures ++ [Msg.ping (ping args)])%list)
      /\ (ping_ok <> "false" -> failures' = failures))
  /\ (forall (w w' : W) (ex : Exit),
        Script.main args w = (inr ex, w') ->
        exists (ping_ok : string) (failures : list string),
          Report.ping_ok (report ex) = Some ping_ok
          /\ Report.failures (report ex) = Some failures
          /\ (In (Msg.ping (ping args)) failures <-> ping_ok = "false")
          /\ count_kind PingFailure failures
             = (if String.eqb ping_ok "false" then 1%nat else 0%nat)
          /\ (ping_ok = "unknown" -> count_kind PingFailure failures = 0%nat)).
Proof.
  split.
  - intros failures w ping_ok failures' w' E.
    split; [eapply check_ping_tool; exact E | ].
    apply Sections.check_ping_returns in E. destruct E as [_ ->].
    destruct (ping_rule_cases ping_ok (ping args)) as [[Hp ->] | [Hp ->]];
      rewrite ?app_nil_r; repeat split; intros Hx;
      try reflexivity; try congruence.
  - intros w w' ex E. main_inv E. exists (ping_ok c), failures. rewrite Hreport.
    split; [apply Run.ping_ok_field | ].
    split; [apply Run.failures_field | ].
    rewrite Hfailures. split; [apply ping_reason_in_evaluate | ].
    rewrite count_kind_evaluate. split; [reflexivity | ].
    intros ->. reflexivity.
Qed.

Lemma ping_failure_exactly_when_false_witness :
  (exists (tool : bool) (w1 : Machine),
      Script.has "ping" scenario_c = (inr tool, w1)
      /\ (tool = false <-> "unknown" = "unknown"))
  /\ exists (ping_ok : string) (failures : list string),
       Report.ping_ok (report (exit_of (Script.main defaults scenario_b)))
       = Some ping_ok
       /\ Report.failures (report (exit_of (Script.main defaults scenario_b)))
          = Some failures
       /\ (In (Msg.ping (ping defaults)) failures <-> ping_ok = "false")
       /\ count_kind PingFailure failures
          = (if String.eqb ping_ok "false" then 1%nat else 0%nat)
       /\ (ping_ok = "unknown" -> count_kind PingFailure failures = 0%nat).
Proof.
  split.
  - apply (proj1 (ping_failure_exactly_when_false _ _ defaults)
             ["Root disk usage 90% exceeds 85%"] scenario_c "unknown"
             ["Root disk usage 90% exceeds 85%"] scenario_c).
    vm_compute. reflexivity.
  - apply (proj2 (ping_failure_exactly_when_false _ _ defaults)
             scenario_b scenario_b).
    vm_compute. reflexivity.
Defined.

Section ServicesRule.
Context {W : Type} {H : Host W}.

Lemma check_services_states args failures w down failures' w' :
  Script.check_services args failures w = (inr (down, failures'), w') ->
  exists (tool : bool) (w1 : W),
    Script.has "systemctl" w = (inr tool, w1)
    /\ (tool = true ->
        exists states : list (string * Z),
          queried_states (split (services args)) w1 = (inr states, w')
          /\ map fst states = split (services args)
          /\ down = not_active states)
    /\ (tool = false -> down = [] /\ w1 = w').
Proof.
  unfold Script.check_services. intros E. run_step E. exists a, w0.
  split; [exact R | ]. destruct a.
  - run_step E.
    apply Sections.services_loop_states in R0.
    destruct R0 as (states & Hq & Hd). simpl in Hd.
    assert (a = down) as ->
      by (destruct a as [| s more]; run_step E; reflexivity).
    assert (w1 = w') as ->
      by (destruct down as [| s more]; run_step E; reflexivity).
    split; [ | discriminate].
    intros _. exists states. split; [exact Hq | ].
    split; [eapply Sections.queried_states_names; exact Hq | exact Hd].
  - run_step E. split; [discriminate | ]. intros _. split; reflexivity.
Qed.

Lemma services_reason_in_evaluate args u pct ping_ok down :
  down <> [] -> In (Msg.services down) (evaluate args u pct ping_ok down).
Proof.
  intros Hd. unfold evaluate. rewrite !in_app_iff. right. right.
  destruct down as [| s down]; [contradiction | ]. simpl. left. reflexivity.
Qed.

End ServicesRule.

(** C5.  [services.checked] is the configured list, split at white space.
    When systemctl is there, the script queries each checked service once,
    in order, and [services.down] is the sub-list of the checked names whose
    query did not answer "active", in that order; when systemctl is not
    there nothing is queried and [services.down] is empty.  When
    [services.down] is not empty, [failures] holds "Services not active: "
    followed by the down names joined by single spaces. *)
Theorem services_down_is_the_inactive_sublist
    (W : Type) (H : Host W) (args : Args) (w w' : W) (ex : Exit) :
  Script.main args w = (inr ex, w') ->
  exists (c : Collected) (w1 : W) (tool : bool) (w2 : W)
         (checked down failures : list string),
    Script.collect_before_services args w = (inr c, w1)
    /\ Script.has "systemctl" w1 = (inr tool, w2)
    /\ Report.services_checked (report ex) = Some checked
    /\ checked = split (services args)
    /\ Report.services_down (report ex) = Some down
    /\ Report.failures (report ex) = Some failures
    /\ (tool = true ->
        exists (states : list (string * Z)) (w3 : W),
          queried_states checked w2 = (inr states, w3)
          /\ map fst states = checked
          /\ down = not_active states)
    /\ (tool = false -> down = [])
    /\ (down <> [] ->
        In ("Services not active: " ++ join " " down) failures).
Proof.
  intros E. main_inv E.
  destruct (check_services_states _ _ _ _ _ _ Hservices)
    as (tool & w3 & Hhas & Hyes & Hno).
  exists c, w1, tool, w3, (split (services args)), down, failures.
  rewrite Hreport.
  split; [exact Hbefore | ].
  split; [exact Hhas | ].
  split; [apply Run.services_checked_field | ].
  split; [reflexivity | ].
  split; [apply Run.services_down_field | ].
  split; [apply Run.failures_field | ].
  split; [ | split].
  - intros Ht. destruct (Hyes Ht) as (states & Hq & Hn & Hd).
    exists states, w2. auto.
  - intros Ht. apply Hno. exact Ht.
  - intros Hd. rewrite Hfailures.
    apply (services_reason_in_evaluate args _ _ _ down Hd).
Qed.

Lemma services_down_is_the_inactive_sublist_witness :
  exists (c : Collected) (w1 : Machine) (tool : bool) (w2 : Machine)
         (checked down failures : list string),
    Script.collect_before_services defaults (server all_tools "50%" 0
      "16000000" "4000000" ["ssh"; "cron"]) = (inr c, w1)
    /\ Script.has "systemctl" w1 = (inr tool, w2)
    /\ Report.services_checked (report (exit_of (Script.main defaults
         (server all_tools "50%" 0 "16000000" "4000000" ["ssh"; "cron"]))))
       = Some checked
    /\ checked = split (services defaults)
    /\ Report.services_down (report (exit_of (Script.main defaults
         (server all_tools "50%" 0 "16000000" "4000000" ["ssh"; "cron"]))))
       = Some down
    /\ Report.failures (report (exit_of (Script.main defaults
         (server all_tools "50%" 0 "16000000" "4000000" ["ssh"; "cron"]))))
       = Some failures
    /\ (tool = true ->
        exists (states : list (string * Z)) (w3 : Machine),
          queried_states checked w2 = (inr states, w3)
          /\ map fst states = checked
          /\ down = not_active states)
    /\ (tool = false -> down = [])
    /\ (down <> [] ->
        In ("Services not active: " ++ join " " down) failures).
Proof.
  apply (services_down_is_the_inactive_sublist _ _ defaults
           (server all_tools "50%" 0 "16000000" "4000000" ["ssh"; "cron"])
           (server all_tools "50%" 0 "16000000" "4000000" ["ssh"; "cron"])).
  vm_compute. reflexivity.
Defined.

Lemma use_num_functional (s1 s2 : string) (u1 u2 : Z) :
  s1 = s2 -> Script.use_num s1 = inr u1 -> Script.use_num s2 = inr u2 -> u1 = u2.
Proof. intros -> E1 E2. rewrite E1 in E2. now inversion E2. Qed.

(** C9.  Two runs under the same threshold and ping target that collected the
    same disk percentage, the same ping classification and the same down
    services report the same failures and the same status, and exit with the
    same code, whatever their hosts, their output formats, and everything
    else they collected (CPU, memory, uptime, upgrades, docker). *)
Theorem informational_facts_do_not_matter
    (W1 W2 : Type) (H1 : Host W1) (H2 : Host W2) (args1 args2 : Args)
    (w1 w1' : W1) (w2 w2' : W2) (ex1 ex2 : Exit) :
  disk_threshold args1 = disk_threshold args2 ->
  ping args1 = ping args2 ->
  Script.main args1 w1 = (inr ex1, w1') ->
  Script.main args2 w2 = (inr ex2, w2') ->
  Report.disk_used_pct (report ex1) = Report.disk_used_pct (report ex2) ->
  Report.ping_ok (report ex1) = Report.ping_ok (report ex2) ->
  Report.services_down (report ex1) = Report.services_down (report ex2) ->
  Report.failures (report ex1) = Report.failures (report ex2)
  /\ Report.status (report ex1) = Report.status (report ex2)
  /\ exit_code ex1 = exit_code ex2.
Proof.
  intros Ht Htarget E1 E2 Hdisk Hping Hdown.
  destruct (Run.main_returns _ _ _ _ E1)
    as [c1 v1 down1 failures1 v1' pkg1 dock1 ts1 _ _ _ Hnum1 _ Hf1 Hr1 Hx1 _].
  destruct (Run.main_returns _ _ _ _ E2)
    as [c2 v2 down2 failures2 v2' pkg2 dock2 ts2 _ _ _ Hnum2 _ Hf2 Hr2 Hx2 _].
  rewrite Hr1, Hr2 in Hdisk, Hping, Hdown |- *.
  rewrite !Run.disk_used_pct_field in Hdisk.
  rewrite !Run.ping_ok_field in Hping.
  rewrite !Run.services_down_field in Hdown.
  rewrite !Run.failures_field, !Run.status_field.
  inversion Hdisk as [Hpct]. inversion Hping as [Hok]. inversion Hdown as [Hd].
  assert (failures1 = failures2) as Hsame.
  { rewrite Hf1, Hf2. unfold evaluate.
    rewrite (use_num_functional _ _ _ _ Hpct Hnum1 Hnum2).
    rewrite Hpct, Hok, Hd, Ht, Htarget. reflexivity. }
  rewrite Hx1, Hx2, Hsame. repeat split.
Qed.

Lemma informational_facts_do_not_matter_witness :
  Report.failures (report (exit_of (Script.main defaults scenario_d)))
  = Report.failures
      (report (exit_of (Script.main (mkArgs 85 "8.8.8.8" "cron nginx" "text")
                          scenario_d_later)))
  /\ Report.status (report (exit_of (Script.main defaults scenario_d)))
     = Report.status
         (report (exit_of (Script.main (mkArgs 85 "8.8.8.8" "cron nginx" "text")
                             scenario_d_later)))
  /\ exit_code (exit_of (Script.main defaults scenario_d))
     = exit_code (exit_of (Script.main (mkArgs 85 "8.8.8.8" "cron nginx" "text")
                             scenario_d_later)).
Proof.
  apply (informational_facts_do_not_matter _ _ _ _ defaults
           (mkArgs 85 "8.8.8.8" "cron nginx" "text")
           scenario_d scenario_d scenario_d_later scenario_d_later);
    vm_compute; reflexivity.
Defined.

Example scenario_d_later_differs :
  match fst (Script.main defaults scenario_d),
        fst (Script.main (mkArgs 85 "8.8.8.8" "cron nginx" "text") scenario_d_later) with
  | inr ex1, inr ex2 =>
      path ["cpu_usage_pct"] (report ex1) <> path ["cpu_usage_pct"] (report ex2)
      /\ path ["memory"] (report ex1) <> path ["memory"] (report ex2)
      /\ path ["uptime"] (report ex1) <> path ["uptime"] (report ex2)
      /\ path ["packages"] (report ex1) <> path ["packages"] (report ex2)
      /\ path ["docker"] (report ex1) <> path ["docker"] (report ex2)
  | _, _ => False
  end.
Proof. vm_compute. repeat split; discriminate. Qed.

(** C8, as stated, fails: with the disk at 90% the report's
    [disk_root.used_pct] is the string "90%", not an integer. *)
Lemma disk_used_pct_not_an_integer :
  Script.main defaults scenario_a
  = (inr (exit_of (Script.main defaults scenario_a)), scenario_a)
  /\ Report.disk_used_pct (report (exit_of (Script.main defaults scenario_a)))
     = Some (PyStr "90%")
  /\ ~ (exists n : Z,
          Report.disk_used_pct (report (exit_of (Script.main defaults scenario_a)))
          = Some (PyInt n)
          /\ 0 <= n <= 100).
Proof.
  split; [vm_compute; reflexivity | ].
  split; [vm_compute; reflexivity | ].
  intros (n & Hn & _). vm_compute in Hn. discriminate Hn.
Qed.

(** C8, amended.  In every report [disk_root.used_pct] is a string: the
    fifth column of the line that the df command printed (the percentage as
    df wrote it, such as "90%"), or the empty string when that command
    printed nothing.  The integer that the script compares with the
    threshold is read from that string ([use_num]).  [threshold_pct] is an
    integer, the configured threshold. *)
Theorem disk_used_pct_is_the_df_column
    (W : Type) (H : Host W) (args : Args) (w w' : W) (ex : Exit) :
  Script.main args w = (inr ex, w') ->
  exists (b : Basics) (wb : W) (cpu : option string) (wc : W) (m : Memory)
         (wm : W) (r : CompletedProcess) (wd : W) (used_pct : string) (u : Z),
    Script.collect_basics w = (inr b, wb)
    /\ Script.collect_cpu wb = (inr cpu, wc)
    /\ Script.collect_memory wc = (inr m, wm)
    /\ Script.sh Cmd.df wm = (inr r, wd)
    /\ nth_error (Script.df_fields (stdout r)) 4 = Some used_pct
    /\ (strip (stdout r) = "" -> used_pct = "")
    /\ Report.disk_used_pct (report ex) = Some (PyStr used_pct)
    /\ Script.use_num used_pct = inr u
    /\ (used_pct = ""
        \/ (used_pct <> "" /\ int (rstrip_char "%" used_pct) = Some u))
    /\ Report.disk_threshold_pct (report ex) = Some (PyInt (disk_threshold args)).
Proof.
  intros E. main_inv E.
  apply Sections.check_disk_fields in Hdisk. destruct Hdisk as (r & Hdf & Hfields).
  exists (basics c), wb, (cpu_usage c), wc, (memory c), wm, r, wd,
         (disk_use_pct (disk c)), (disk_use_num (disk c)).
  rewrite Hreport.
  split; [exact Hbasics | ]. split; [exact Hcpu | ]. split; [exact Hmemory | ].
  split; [exact Hdf | ].
  split; [rewrite Hfields; reflexivity | ].
  split.
  { intros Hempty. unfold Script.df_fields in Hfields. rewrite Hempty in Hfields.
    simpl in Hfields. now inversion Hfields. }
  split; [apply Run.disk_used_pct_field | ].
  split; [exact Hnum | ].
  split; [ | apply Run.disk_threshold_pct_field].
  unfold Script.use_num in Hnum.
  destruct (disk_use_pct (disk c)) as [| ch rest]; [left; reflexivity | right].
  split; [discriminate | ]. simpl in Hnum.
  destruct (int (rstrip_char "%" (String ch rest))) as [n |]; simpl in Hnum;
    [now inversion Hnum | discriminate Hnum].
Qed.

Lemma disk_used_pct_is_the_df_column_witness :
  exists (b : Basics) (wb : Machine) (cpu : option string) (wc : Machine)
         (m : Memory) (wm : Machine) (r : CompletedProcess) (wd : Machine)
         (used_pct : string) (u : Z),
    Script.collect_basics scenario_a = (inr b, wb)
    /\ Script.collect_cpu wb = (inr cpu, wc)
    /\ Script.collect_memory wc = (inr m, wm)
    /\ Script.sh Cmd.df wm = (inr r, wd)
    /\ nth_error (Script.df_fields (stdout r)) 4 = Some used_pct
    /\ (strip (stdout r) = "" -> used_pct = "")
    /\ Report.disk_used_pct (report (exit_of (Script.main defaults scenario_a)))
       = Some (PyStr used_pct)
    /\ Script.use_num used_pct = inr u
    /\ (used_pct = ""
        \/ (used_pct <> "" /\ int (rstrip_char "%" used_pct) = Some u))
    /\ Report.disk_threshold_pct (report (exit_of (Script.main defaults scenario_a)))
       = Some (PyInt (disk_threshold defaults)).
Proof.
  apply (disk_used_pct_is_the_df_column _ _ defaults scenario_a scenario_a).
  vm_compute. reflexivity.
Defined.

Section MemoryFigures.
Context {W : Type} {H : Host W}.

Lemma collect_memory_returns w m w' :
  Script.collect_memory w = (inr m, w') ->
  exists w1 : W,
    Script.read_mem_kb "MemTotal" w = (inr (mem_total m), w1)
    /\ Script.read_mem_kb "MemAvailable" w1 = (inr (mem_avail m), w')
    /\ mem_used m = mem_total m - mem_avail m
    /\ Script.used_pct (mem_used m) (mem_total m) = inr (mem_used_pct m).
Proof.
  unfold Script.collect_memory. intros E.
  run_step E. run_step E. run_step E. run_step E. simpl.
  exists w0. repeat split; assumption.
Qed.

Lemma used_pct_positive total avail :
  0 < total ->
  Script.used_pct (total - avail) total
  = match rounded_pct total avail with
    | inr x => inr (PyFloat x)
    | inl e => inl e
    end.
Proof.
  intros Hpos. unfold Script.used_pct, rounded_pct.
  destruct (Z.eqb_spec total 0) as [-> | _]; [lia | ]. simpl.
  destruct (PyFloatOps.truediv (total - avail) total); reflexivity.
Qed.

Lemma used_pct_zero used : Script.used_pct used 0 = inr (PyInt 0).
Proof. reflexivity. Qed.

End MemoryFigures.

(** C6.  Whatever the two memory readings [total] and [avail] are: when
    [total] is positive, [memory.used_pct] is the float that Python gives
    for [round((total - avail) / total * 100, 1)] (and the section raises
    what that expression raises); when [total] is 0 it is the integer 0 and
    nothing is raised.  The report carries these figures: [total_kb] is
    [total], [used_kb] is [total - avail], [used_pct] as above. *)
Theorem memory_used_pct_formula (W : Type) (H : Host W) :
  (forall (w w1 w2 : W) (total avail : Z),
      Script.read_mem_kb "MemTotal" w = (inr total, w1) ->
      Script.read_mem_kb "MemAvailable" w1 = (inr avail, w2) ->
      (0 < total ->
       Script.collect_memory w
       = (match rounded_pct total avail with
          | inr x => inr (mkMemory total avail (total - avail) (PyFloat x))
          | inl e => inl e
          end, w2))
      /\ (total = 0 ->
          Script.collect_memory w
          = (inr (mkMemory 0 avail (0 - avail) (PyInt 0)), w2)))
  /\ (forall (args : Args) (w w' : W) (ex : Exit),
        Script.main args w = (inr ex, w') ->
        exists (b : Basics) (wb : W) (cpu : option string) (wc : W)
               (total : Z) (wt : W) (avail : Z) (wm : W),
          Script.collect_basics w = (inr b, wb)
          /\ Script.collect_cpu wb = (inr cpu, wc)
          /\ Script.read_mem_kb "MemTotal" wc = (inr total, wt)
          /\ Script.read_mem_kb "MemAvailable" wt = (inr avail, wm)
          /\ Report.memory_total_kb (report ex) = Some total
          /\ Report.memory_used_kb (report ex) = Some (total - avail)
          /\ (0 < total ->
              exists x : spec_float,
                rounded_pct total avail = inr x
                /\ Report.memory_used_pct (report ex) = Some (PyFloat x))
          /\ (total = 0 ->
              Report.memory_used_pct (report ex) = Some (PyInt 0))).
Proof.
  split.
  - intros w w1 w2 total avail Ht Ha. unfold Script.collect_memory.
    rewrite (bind_run _ _ _ _ _ Ht), (bind_run _ _ _ _ _ Ha). split.
    + intros Hpos. unfold bind, lift, ret.
      rewrite (used_pct_positive total avail Hpos).
      destruct (rounded_pct total avail); reflexivity.
    + intros ->. reflexivity.
  - intros args w w' ex E. main_inv E.
    apply collect_memory_returns in Hmemory.
    destruct Hmemory as (wt & Ht & Ha & Hused & Hpct).
    exists (basics c), wb, (cpu_usage c), wc, (mem_total (memory c)), wt,
           (mem_avail (memory c)), wm.
    rewrite Hreport.
    destruct (Run.memory_fields args ts (basics c) (cpu_usage c) (memory c)
                (disk c) (ping_ok c) down pkg dock (Script.status_of failures)
                failures) as (Fpct & Fused & Ftotal).
    split; [exact Hbasics | ]. split; [exact Hcpu | ].
    split; [exact Ht | ]. split; [exact Ha | ].
    split; [exact Ftotal | ].
    split; [rewrite <- Hused; exact Fused | ].
    rewrite Fpct, Hused in *. split.
    + intros Hpos. rewrite (used_pct_positive _ _ Hpos) in Hpct.
      destruct (rounded_pct (mem_total (memory c)) (mem_avail (memory c)))
        as [e | x]; [discriminate Hpct | ].
      exists x. split; [reflexivity | ]. now inversion Hpct.
    + intros Hz. rewrite Hz in Hpct. rewrite used_pct_zero in Hpct.
      now inversion Hpct.
Qed.

Lemma memory_used_pct_formula_witness :
  Script.collect_memory scenario_all
  = (inr (mkMemory 0 0 (0 - 0) (PyInt 0)), scenario_all)
  /\ exists (b : Basics) (wb : Machine) (cpu : option string) (wc : Machine)
            (total : Z) (wt : Machine) (avail : Z) (wm : Machine),
       Script.collect_basics scenario_a = (inr b, wb)
       /\ Script.collect_cpu wb = (inr cpu, wc)
       /\ Script.read_mem_kb "MemTotal" wc = (inr total, wt)
       /\ Script.read_mem_kb "MemAvailable" wt = (inr avail, wm)
       /\ Report.memory_total_kb (report (exit_of (Script.main defaults scenario_a)))
          = Some total
       /\ Report.memory_used_kb (report (exit_of (Script.main defaults scenario_a)))
          = Some (total - avail)
       /\ (0 < total ->
           exists x : spec_float,
             rounded_pct total avail = inr x
             /\ Report.memory_used_pct
                  (report (exit_of (Script.main defaults scenario_a)))
                = Some (PyFloat x))
       /\ (total = 0 ->
           Report.memory_used_pct (report (exit_of (Script.main defaults scenario_a)))
           = Some (PyInt 0)).
Proof.
  split.
  - apply (proj1 (memory_used_pct_formula _ _) scenario_all scenario_all
             scenario_all 0 0); [vm_compute; reflexivity .. | reflexivity].
  - apply (proj2 (memory_used_pct_formula _ _) defaults scenario_a scenario_a).
    vm_compute. reflexivity.
Defined.

(* ===================================================================== *)
(** ** More of the script: the other collectors and the presenter *)
(* ===================================================================== *)

Import Words Bare.



Lemma rstrip_by_idem p s : rstrip_by p (rstrip_by p s) = rstrip_by p s.
Proof.
  induction s as [| c s IH]; simpl; [reflexivity | ].
  destruct (is_empty (rstrip_by p s) && p c) eqn:E; simpl; [reflexivity | ].
  rewrite IH, E. reflexivity.
Qed.

Lemma lstrip_by_head p s :
  lstrip_by p s = EmptyString
  \/ exists c t, lstrip_by p s = String c t /\ p c = false.
Proof.
  induction s as [| c s IH]; simpl; [left; reflexivity | ].
  destruct (p c) eqn:E; [exact IH | right; eauto].
Qed.

Lemma strip_by_idem p s : strip_by p (strip_by p s) = strip_by p s.
Proof.
  unfold strip_by.
  destruct (lstrip_by_head p s) as [-> | (c & t & -> & Hc)]; [reflexivity | ].
  simpl. rewrite Hc, andb_false_r. simpl. rewrite Hc.
  change (rstrip_by p (String c (rstrip_by p t)) = String c (rstrip_by p t)).
  simpl. rewrite rstrip_by_idem, Hc, andb_false_r. reflexivity.
Qed.

Lemma rstrip_by_none p s :
  all_chars (fun c => negb (p c)) s = true -> rstrip_by p s = s.
Proof.
  induction s as [| c s IH]; simpl; [reflexivity | ].
  intros E. apply andb_true_iff in E. destruct E as [Hc Hs].
  rewrite (IH Hs). apply negb_true_iff in Hc. rewrite Hc, andb_false_r. reflexivity.
Qed.

Lemma rstrip_by_snoc p s c :
  all_chars (fun c => negb (p c)) s = true -> p c = true ->
  rstrip_by p (s ++ String c EmptyString) = s.
Proof.
  intros Hs Hc. induction s as [| a s IH]; simpl.
  - rewrite Hc. reflexivity.
  - simpl in Hs. apply andb_true_iff in Hs. destruct Hs as [Ha Hs].
    rewrite (IH Hs). apply negb_true_iff in Ha. rewrite Ha, andb_false_r. reflexivity.
Qed.

Lemma lstrip_by_none p s :
  all_chars (fun c => negb (p c)) s = true -> lstrip_by p s = s.
Proof.
  destruct s as [| c s]; simpl; [reflexivity | ].
  intros E. apply andb_true_iff in E. destruct E as [Hc _].
  apply negb_true_iff in Hc. rewrite Hc. reflexivity.
Qed.

Lemma append_empty_r s : s ++ "" = s.
Proof. induction s as [| c s IH]; simpl; [reflexivity | now rewrite IH]. Qed.

Lemma split_go_word w s :
  all_chars (fun c => negb (is_space c)) w = true ->
  split_go (w ++ s) = (w ++ fst (split_go s), snd (split_go s)).
Proof.
  induction w as [| c w IH]; simpl; intros E.
  - destruct (split_go s); reflexivity.
  - apply andb_true_iff in E. destruct E as [Hc Hw].
    rewrite (IH Hw). apply negb_true_iff in Hc. rewrite Hc. reflexivity.
Qed.

Lemma split_space s : split (String " " s) = split s.
Proof. unfold split. simpl. destruct (split_go s); reflexivity. Qed.

Lemma split_word_then w s :
  is_word w = true -> split (w ++ String " " s) = w :: split s.
Proof.
  unfold is_word. intros E. apply andb_true_iff in E. destruct E as [Hne Hw].
  pose proof (split_space s) as Hs. unfold split in *.
  rewrite (split_go_word w _ Hw).
  destruct (split_go (String " " s)) as [w1 ws1] eqn:E1.
  simpl in E1. destruct (split_go s) as [w2 ws2]. inversion E1; subst.
  simpl. rewrite append_empty_r. unfold cons_word at 1.
  destruct w; [discriminate | reflexivity].
Qed.

Lemma split_word w : is_word w = true -> split w = [w].
Proof.
  unfold is_word. intros E. apply andb_true_iff in E. destruct E as [Hne Hw].
  unfold split. rewrite <- (append_empty_r w) at 1.
  rewrite (split_go_word w "" Hw). simpl. rewrite append_empty_r.
  unfold cons_word. destruct w; [discriminate | reflexivity].
Qed.

Lemma split_join l :
  forallb is_word l = true -> split (join " " l) = l.
Proof.
  induction l as [| x l IH]; [reflexivity | ].
  simpl forallb. intros E. apply andb_true_iff in E. destruct E as [Hx Hl].
  specialize (IH Hl). unfold join in *.
  destruct l as [| y l].
  - simpl. apply split_word. exact Hx.
  - change (String.concat " " (x :: y :: l))
      with (x ++ String " " (String.concat " " (y :: l))).
    rewrite (split_word_then x _ Hx), IH. reflexivity.
Qed.

Lemma cons_word_words w ws :
  all_chars (fun c => negb (is_space c)) w = true ->
  forallb is_word ws = true ->
  forallb is_word (cons_word w ws) = true.
Proof.
  intros Hw Hs. unfold cons_word. destruct w as [| a w]; simpl; [exact Hs | ].
  apply andb_true_iff. split; [ | exact Hs].
  unfold is_word. apply andb_true_iff. split; [reflexivity | exact Hw].
Qed.

Lemma split_go_words s :
  all_chars (fun c => negb (is_space c)) (fst (split_go s)) = true
  /\ forallb is_word (snd (split_go s)) = true.
Proof.
  induction s as [| c s [IHw IHs]]; simpl; [split; reflexivity | ].
  destruct (split_go s) as [w ws]. simpl in IHw, IHs.
  destruct (is_space c) eqn:Ec; simpl.
  - split; [reflexivity | apply cons_word_words; assumption].
  - rewrite Ec. simpl. split; assumption.
Qed.

Lemma split_yields_words s : forallb is_word (split s) = true.
Proof.
  unfold split. pose proof (split_go_words s) as [Hw Hs].
  destruct (split_go s) as [w ws]. apply cons_word_words; assumption.
Qed.

Ltac eat_digit :=
  cbn [int_digits NilEmpty.string_of_uint Pos.of_uint_acc Pos.of_uint];
  match goal with
  | |- context [is_digit ?c] =>
      change (is_digit c) with true; cbv iota;
      let v := eval vm_compute in (digit_val c) in
      change (digit_val c) with v
  end.

Lemma int_digits_acc d : forall acc,
  int_digits (NilEmpty.string_of_uint d) (Zpos acc) true
  = Some (Zpos (Pos.of_uint_acc d acc)).
Proof.
  induction d; intros acc; [reflexivity | ..]; eat_digit; rewrite <- IHd;
    f_equal; lia.
Qed.

Lemma int_digits_uint d : forall prev,
  (d <> Decimal.Nil \/ prev = true) ->
  int_digits (NilEmpty.string_of_uint d) 0 prev = Some (Z.of_N (Pos.of_uint d)).
Proof.
  induction d; intros prev Hd.
  - destruct Hd as [Hd | ->]; [contradiction | reflexivity].
  - eat_digit. apply IHd. right. reflexivity.
  - eat_digit. exact (int_digits_acc d 1).
  - eat_digit. exact (int_digits_acc d 2).
  - eat_digit. exact (int_digits_acc d 3).
  - eat_digit. exact (int_digits_acc d 4).
  - eat_digit. exact (int_digits_acc d 5).
  - eat_digit. exact (int_digits_acc d 6).
  - eat_digit. exact (int_digits_acc d 7).
  - eat_digit. exact (int_digits_acc d 8).
  - eat_digit. exact (int_digits_acc d 9).
Qed.

Lemma string_of_uint_digits d : all_chars is_digit (NilEmpty.string_of_uint d) = true.
Proof. induction d; simpl; try reflexivity; exact IHd. Qed.

Lemma digit_not_space c : is_digit c = true -> is_int_space c = false.
Proof.
  unfold is_digit, is_int_space. intros E.
  apply andb_true_iff in E. destruct E as [E1 E2].
  apply Z.leb_le in E1. apply Z.leb_le in E2.
  repeat match goal with
  | |- context [?a <=? ?b] => destruct (Z.leb_spec a b)
  | |- context [?a =? ?b] => destruct (Z.eqb_spec a b)
  end; simpl; try reflexivity; lia.
Qed.

Lemma digit_not_percent c : is_digit c = true -> Ascii.eqb "%" c = false.
Proof.
  intros E. destruct (Ascii.eqb_spec "%" c) as [<- | ]; [discriminate E | reflexivity].
Qed.

Lemma all_chars_impl (p q : ascii -> bool) s :
  (forall c, p c = true -> q c = true) ->
  all_chars p s = true -> all_chars q s = true.
Proof.
  intros Hpq. induction s as [| c s IH]; simpl; [reflexivity | ].
  intros E. apply andb_true_iff in E. destruct E as [Hc Hs].
  rewrite (Hpq c Hc), (IH Hs). reflexivity.
Qed.

Lemma uint_string_cases (d : Decimal.uint) :
  exists c s, NilZero.string_of_uint d = String c s
              /\ is_digit c = true /\ all_chars is_digit s = true
              /\ int_digits (String c s) 0 false = Some (Z.of_N (Pos.of_uint d)).
Proof.
  destruct d; simpl NilZero.string_of_uint;
    try (eexists; eexists; split; [reflexivity | ];
         split; [reflexivity | ]; split;
         [ try reflexivity; apply string_of_uint_digits | ]).
  - reflexivity.
  - apply (int_digits_uint (Decimal.D0 d)). left. discriminate.
  - apply (int_digits_uint (Decimal.D1 d)). left. discriminate.
  - apply (int_digits_uint (Decimal.D2 d)). left. discriminate.
  - apply (int_digits_uint (Decimal.D3 d)). left. discriminate.
  - apply (int_digits_uint (Decimal.D4 d)). left. discriminate.
  - apply (int_digits_uint (Decimal.D5 d)). left. discriminate.
  - apply (int_digits_uint (Decimal.D6 d)). left. discriminate.
  - apply (int_digits_uint (Decimal.D7 d)). left. discriminate.
  - apply (int_digits_uint (Decimal.D8 d)). left. discriminate.
  - apply (int_digits_uint (Decimal.D9 d)). left. discriminate.
Qed.

Lemma strip_by_none p s :
  all_chars (fun c => negb (p c)) s = true -> strip_by p s = s.
Proof.
  intros E. unfold strip_by. rewrite (lstrip_by_none p s E). apply rstrip_by_none. exact E.
Qed.

Lemma int_unsigned c t :
  is_digit c = true ->
  all_chars is_digit t = true ->
  int (String c t) = int_digits (String c t) 0 false.
Proof.
  intros Hc Ht. unfold int.
  rewrite strip_by_none.
  - destruct c as [[] [] [] [] [] [] [] []]; try discriminate Hc; reflexivity.
  - simpl. rewrite (digit_not_space c Hc). simpl.
    apply (all_chars_impl is_digit); [ | exact Ht].
    intros a Ha. now rewrite (digit_not_space a Ha).
Qed.

Lemma int_negative c t :
  is_digit c = true ->
  all_chars is_digit t = true ->
  int (String "-" (String c t)) = option_map Z.opp (int_digits (String c t) 0 false).
Proof.
  intros Hc Ht. unfold int.
  rewrite strip_by_none; [reflexivity | ].
  simpl. rewrite (digit_not_space c Hc). simpl.
  apply (all_chars_impl is_digit); [ | exact Ht].
  intros a Ha. now rewrite (digit_not_space a Ha).
Qed.

Lemma int_str_of_int n : int (str_of_int n) = Some n.
Proof.
  unfold str_of_int. destruct n as [| p | p]; [reflexivity | | ];
    unfold Z.to_int, NilZero.string_of_int;
    destruct (uint_string_cases (Pos.to_uint p)) as (c & t & -> & Hc & Ht & Hv);
    [rewrite (int_unsigned c t Hc Ht) | rewrite (int_negative c t Hc Ht)];
    rewrite Hv, DecimalPos.Unsigned.of_to; reflexivity.
Qed.

Lemma digits_no_percent c t :
  is_digit c = true -> all_chars is_digit t = true ->
  all_chars (fun a => negb (Ascii.eqb "%" a)) (String c t) = true.
Proof.
  intros Hc Ht. cbn [all_chars]. rewrite (digit_not_percent c Hc).
  apply (all_chars_impl is_digit); [ | exact Ht].
  intros a Ha. now rewrite (digit_not_percent a Ha).
Qed.

Lemma str_of_int_chars n :
  exists c t, str_of_int n = String c t
              /\ all_chars (fun a => negb (Ascii.eqb "%" a)) (String c t) = true.
Proof.
  unfold str_of_int. destruct n as [| p | p].
  - exists "0"%char, "". split; reflexivity.
  - unfold Z.to_int, NilZero.string_of_int.
    destruct (uint_string_cases (Pos.to_uint p)) as (c & t & -> & Hc & Ht & _).
    exists c, t. split; [reflexivity | now apply digits_no_percent].
  - unfold Z.to_int, NilZero.string_of_int.
    destruct (uint_string_cases (Pos.to_uint p)) as (c & t & -> & Hc & Ht & _).
    exists "-"%char, (String c t). split; [reflexivity | ].
    cbn [all_chars]. change (negb (Ascii.eqb "%" "-")) with true.
    now apply digits_no_percent.
Qed.

Lemma use_num_percent n :
  Script.use_num (str_of_int n ++ "%") = inr n
  /\ Script.use_num (str_of_int n) = inr n.
Proof.
  destruct (str_of_int_chars n) as (c & t & E & Hc).
  assert (truthy (str_of_int n ++ "%") = true) as T1 by (rewrite E; reflexivity).
  assert (truthy (str_of_int n) = true) as T2 by (rewrite E; reflexivity).
  rewrite <- E in Hc.
  unfold Script.use_num, rstrip_char. rewrite T1, T2. split.
  - rewrite rstrip_by_snoc; [ | exact Hc | reflexivity].
    rewrite int_str_of_int. reflexivity.
  - rewrite rstrip_by_none; [ | exact Hc].
    rewrite int_str_of_int. reflexivity.
Qed.

Section Basics.
Context {W : Type} {H : Host W}.

Lemma os_release_block (w w' : W) (res : PyExc + string) :
  read_text "/etc/os-release" w = (res, w') ->
  try_except (text <- read_text "/etc/os-release" ;;
              lift (Script.pretty_name (lines text)))
             (fun _ => ret "") w
  = (inr match res with
         | inr text => match Script.pretty_name (lines text) with
                       | inr s => s
                       | inl _ => ""
                       end
         | inl _ => ""
         end, w').
Proof.
  intros E. unfold try_except, bind. rewrite E.
  destruct res as [e | text]; [reflexivity | ].
  unfold lift. destruct (Script.pretty_name (lines text)); reflexivity.
Qed.

Lemma collect_basics_runs (w w1 w2 w3 w4 w5 w6 : W) host kernel res r1 r2 txt :
  platform_node w = (inr host, w1) ->
  platform_release w1 = (inr kernel, w2) ->
  read_text "/etc/os-release" w2 = (res, w3) ->
  Script.sh Cmd.uptime w3 = (inr r1, w4) ->
  Script.sh Cmd.boot w4 = (inr r2, w5) ->
  read_text "/proc/loadavg" w5 = (inr txt, w6) ->
  Script.collect_basics w
  = (match Script.unpack4 (firstn 4 (split txt)) with
     | inr (a, b, c, _) =>
         inr (mkBasics host kernel
                match res with
                | inr text => match Script.pretty_name (lines text) with
                              | inr s => s
                              | inl _ => ""
                              end
                | inl _ => ""
                end
                (strip (stdout r1)) (strip (stdout r2)) a b c)
     | inl e => inl e
     end, w6).
Proof.
  intros Hn Hr Ho Hu Hb Hl. unfold Script.collect_basics.
  rewrite (bind_run _ _ _ _ _ Hn), (bind_run _ _ _ _ _ Hr).
  rewrite (bind_run _ _ _ _ _ (os_release_block _ _ _ Ho)).
  rewrite (bind_run _ _ _ _ _ Hu), (bind_run _ _ _ _ _ Hb), (bind_run _ _ _ _ _ Hl).
  unfold bind, lift.
  destruct (Script.unpack4 (firstn 4 (split txt))) as [e | [[[a b] c] d]]; reflexivity.
Qed.

End Basics.

Section BasicsFacts.
Context {W : Type} {H : Host W}.

(** X7.  When /etc/os-release cannot be read, the exception is swallowed: the
    basics are collected all the same and the OS name is the empty string. *)
Theorem unreadable_os_release_is_tolerated
    (w w1 w2 w3 w4 w5 w6 : W) (host kernel : string) (e : PyExc)
    (r1 r2 : CompletedProcess) (txt a b c d : string) :
  platform_node w = (inr host, w1) ->
  platform_release w1 = (inr kernel, w2) ->
  read_text "/etc/os-release" w2 = (inl e, w3) ->
  Script.sh Cmd.uptime w3 = (inr r1, w4) ->
  Script.sh Cmd.boot w4 = (inr r2, w5) ->
  read_text "/proc/loadavg" w5 = (inr txt, w6) ->
  firstn 4 (split txt) = [a; b; c; d] ->
  Script.collect_basics w
  = (inr (mkBasics host kernel "" (strip (stdout r1)) (strip (stdout r2)) a b c),
     w6).
Proof.
  intros Hn Hr Ho Hu Hb Hl Hf.
  rewrite (collect_basics_runs _ _ _ _ _ _ _ _ _ _ _ _ _ Hn Hr Ho Hu Hb Hl), Hf.
  reflexivity.
Qed.

Lemma unpack4_short (l : list string) :
  (List.length l < 4)%nat -> Script.unpack4 (firstn 4 l) = inl ValueError.
Proof.
  destruct l as [| x1 [| x2 [| x3 [| x4 l]]]]; simpl; intros Hl;
    try reflexivity; lia.
Qed.

Lemma unpack4_long (l : list string) :
  (4 <= List.length l)%nat ->
  Script.unpack4 (firstn 4 l)
  = inr (nth 0 l "", nth 1 l "", nth 2 l "", nth 3 l "").
Proof.
  destruct l as [| x1 [| x2 [| x3 [| x4 l]]]]; simpl; intros Hl;
    try reflexivity; lia.
Qed.

(** X9.  The load-average text must hold at least four words: with fewer the
    basics raise ValueError (and the run ends without a report); with four
    or more, the three load figures are its first three words. *)
Theorem loadavg_needs_four_words
    (w w1 w2 w3 w4 w5 w6 : W) (host kernel : string) (res : PyExc + string)
    (r1 r2 : CompletedProcess) (txt : string) :
  platform_node w = (inr host, w1) ->
  platform_release w1 = (inr kernel, w2) ->
  read_text "/etc/os-release" w2 = (res, w3) ->
  Script.sh Cmd.uptime w3 = (inr r1, w4) ->
  Script.sh Cmd.boot w4 = (inr r2, w5) ->
  read_text "/proc/loadavg" w5 = (inr txt, w6) ->
  ((List.length (split txt) < 4)%nat ->
   Script.collect_basics w = (inl ValueError, w6))
  /\ ((4 <= List.length (split txt))%nat ->
      exists b : Basics,
        Script.collect_basics w = (inr b, w6)
        /\ l1 b = nth 0 (split txt) ""
        /\ l5 b = nth 1 (split txt) ""
        /\ l15 b = nth 2 (split txt) "").
Proof.
  intros Hn Hr Ho Hu Hb Hl.
  rewrite (collect_basics_runs _ _ _ _ _ _ _ _ _ _ _ _ _ Hn Hr Ho Hu Hb Hl).
  split; intros Hlen.
  - rewrite (unpack4_short _ Hlen). reflexivity.
  - rewrite (unpack4_long _ Hlen). eexists. split; [reflexivity | ].
    repeat split.
Qed.

End BasicsFacts.

Lemma startswith_split p : forall s,
  startswith p s = true -> exists rest, s = p ++ rest.
Proof.
  induction p as [| a p IH]; intros s E.
  - exists s. reflexivity.
  - destruct s as [| b s]; simpl in E; [discriminate E | ].
    apply andb_true_iff in E. destruct E as [Hab Hs].
    apply Ascii.eqb_eq in Hab. subst b.
    destruct (IH s Hs) as (rest & ->). exists rest. reflexivity.
Qed.

Lemma startswith_append p s : startswith p (p ++ s) = true.
Proof.
  induction p as [| a p IH]; simpl; [reflexivity | ].
  rewrite Ascii.eqb_refl, IH. reflexivity.
Qed.

Lemma pretty_name_cons line rest :
  Script.pretty_name (line :: rest)
  = if startswith "PRETTY_NAME=" line
    then match after_first "=" line with
         | Some v => inr (strip_char (ascii_of_nat 34) (strip v))
         | None => inl IndexError
         end
    else Script.pretty_name rest.
Proof. reflexivity. Qed.

(** X8.  The OS name is taken from the first line that starts with
    PRETTY_NAME=: the rest of that line, trimmed of white space and then of
    double quotes; later lines are not looked at.  Without such a line the
    name is empty.  The loop never raises. *)
Theorem pretty_name_takes_first_match :
  (forall ls : list string,
      Forall (fun l => startswith "PRETTY_NAME=" l = false) ls ->
      Script.pretty_name ls = inr "")
  /\ (forall (before : list string) (v : string) (after : list string),
        Forall (fun l => startswith "PRETTY_NAME=" l = false) before ->
        Script.pretty_name (before ++ ("PRETTY_NAME=" ++ v) :: after)
        = inr (strip_char (ascii_of_nat 34) (strip v)))
  /\ (forall ls : list string, exists name, Script.pretty_name ls = inr name).
Proof.
  split; [ | split].
  - intros ls Hls. induction Hls as [| l ls Hl _ IH]; [reflexivity | ].
    rewrite pretty_name_cons, Hl. exact IH.
  - intros before v after Hb. induction Hb as [| l ls Hl _ IH].
    + reflexivity.
    + rewrite <- app_comm_cons, pretty_name_cons, Hl. exact IH.
  - intros ls. induction ls as [| l ls IH]; [exists ""; reflexivity | ].
    rewrite pretty_name_cons.
    destruct (startswith "PRETTY_NAME=" l) eqn:E; [ | exact IH].
    destruct (startswith_split _ _ E) as (rest & ->).
    eexists. reflexivity.
Qed.

Section Tail.
Context {W : Type} {H : Host W}.

Lemma main_unfolds args (w w' : W) ex :
  Script.main args w = (inr ex, w') ->
  exists (c : Collected) (w1 : W) (down failures : list string) (w2 : W)
         (pkg : PyVal) (w3 : W) (dock : PyVal) (w4 : W) (ts : string),
    Script.collect_before_services args w = (inr c, w1)
    /\ Script.check_services args (failures_so_far c) w1
       = (inr (down, failures), w2)
    /\ Script.collect_upgrades w2 = (inr pkg, w3)
    /\ Script.collect_docker w3 = (inr dock, w4)
    /\ utc_timestamp w4 = (inr ts, w')
    /\ report ex
       = Script.report_data args ts (basics c) (cpu_usage c) (memory c) (disk c)
           (ping_ok c) down pkg dock (Script.status_of failures) failures
    /\ printed ex
       = (if String.eqb (format args) "json"
          then [JsonDump (report ex)]
          else [Line ("Ubuntu Health Check - " ++ ts);
                Line ("Status: " ++ Script.status_of failures);
                JsonDump (report ex)]).
Proof.
  unfold Script.main. intros E.
  run_step E. run_step E. destruct a0 as [down failures].
  run_step E. run_step E. run_step E. run_step E.
  exists a, w0, down, failures, w1, a0, w2, a1, w3, a2.
  repeat split; assumption.
Qed.


Lemma collect_docker_returns (w w' : W) dock :
  Script.collect_docker w = (inr dock, w') ->
  dock = PyNone \/ dock = PyStr "running"
  \/ dock = PyStr "installed_not_running_or_no_perms".
Proof.
  unfold Script.collect_docker. intros E. run_step E. destruct a.
  - run_step E. run_step E. destruct (returncode a =? 0); auto.
  - run_step E. auto.
Qed.

Lemma collect_upgrades_returns (w w' : W) pkg :
  Script.collect_upgrades w = (inr pkg, w') ->
  pkg = PyNone \/ exists n : Z, pkg = PyInt n.
Proof.
  unfold Script.collect_upgrades. intros E. run_step E. destruct a.
  - run_step E.
    destruct (int (strip (if truthy (stdout a) then stdout a else "0")));
      run_step E; eauto.
  - run_step E. auto.
Qed.

Lemma collect_basics_returns (w w' : W) b :
  Script.collect_basics w = (inr b, w') ->
  exists (r1 r2 : CompletedProcess) (txt rest : string),
    uptime_out b = strip (stdout r1)
    /\ boot_out b = strip (stdout r2)
    /\ firstn 4 (split txt) = [l1 b; l5 b; l15 b; rest].
Proof.
  unfold Script.collect_basics. intros E.
  run_step E. run_step E. run_step E. run_step E. run_step E. run_step E.
  run_step E. destruct a5 as [[[x1 x5] x15] rest]. run_step E.
  cbn [uptime_out boot_out l1 l5 l15].
  exists a2, a3, a4, rest. repeat split.
  unfold Script.unpack4 in R5.
  destruct (firstn 4 (split a4)) as [| y1 [| y2 [| y3 [| y4 [| y5 l]]]]];
    try discriminate R5.
  now inversion R5.
Qed.

End Tail.

(** X3.  When [has] answers False for ping, systemctl, apt-get or docker, the
    section returns its default ("unknown", no service down, None, None)
    in the very state [has] left: no command is run and [failures] is
    untouched. *)
Theorem absent_tools_are_not_run
    (W : Type) (H : Host W) (args : Args) (failures : list string) (w w1 : W) :
  (Script.has "ping" w = (inr false, w1) ->
   Script.check_ping args failures w = (inr ("unknown", failures), w1))
  /\ (Script.has "systemctl" w = (inr false, w1) ->
      Script.check_services args failures w = (inr ([], failures), w1))
  /\ (Script.has "apt-get" w = (inr false, w1) ->
      Script.collect_upgrades w = (inr PyNone, w1))
  /\ (Script.has "docker" w = (inr false, w1) ->
      Script.collect_docker w = (inr PyNone, w1)).
Proof.
  unfold Script.check_ping, Script.check_services, Script.collect_upgrades,
    Script.collect_docker.
  repeat split; intros E; rewrite (bind_run _ _ _ _ _ E); reflexivity.
Qed.


(** X10.  With apt-get present the upgrades section returns whatever the
    command printed: an empty output counts as 0, an output of white space
    only gives None, any other output gives its integer or None when it is
    not one. *)
Theorem upgrades_parse_never_aborts
    (W : Type) (H : Host W) (w w1 w2 : W) (r : CompletedProcess) :
  Script.has "apt-get" w = (inr true, w1) ->
  Script.sh Cmd.apt w1 = (inr r, w2) ->
  exists v : PyVal,
    Script.collect_upgrades w = (inr v, w2)
    /\ (stdout r = "" -> v = PyInt 0)
    /\ (stdout r <> "" -> strip (stdout r) = "" -> v = PyNone)
    /\ (stdout r <> "" ->
        v = match int (strip (stdout r)) with
            | Some n => PyInt n
            | None => PyNone
            end).
Proof.
  intros Hhas Hsh. unfold Script.collect_upgrades.
  rewrite (bind_run _ _ _ _ _ Hhas), (bind_run _ _ _ _ _ Hsh).
  destruct (stdout r) as [| ch rest] eqn:Eout.
  - exists (PyInt 0). repeat split; intros; try reflexivity; contradiction.
  - change (truthy (String ch rest)) with true. cbv iota.
    destruct (int (strip (String ch rest))) as [n |] eqn:Ei.
    + exists (PyInt n). split; [reflexivity | ].
      split; [discriminate | ]. split; [ | reflexivity].
      intros _ Hblank. rewrite Hblank in Ei. discriminate Ei.
    + exists PyNone. repeat split; intros; try reflexivity; discriminate.
Qed.

Lemma unpack6_wrong_length (l : list string) :
  List.length l <> 6%nat -> Script.unpack6 l = inl ValueError.
Proof.
  destruct l as [| x1 [| x2 [| x3 [| x4 [| x5 [| x6 [| x7 l]]]]]]]; simpl;
    intros Hl; try reflexivity; contradiction.
Qed.

(** X11.  When df prints nothing the disk fields are empty strings and the
    usage counts as 0 (a failure only under a negative threshold).  When df
    prints a line that does not have six words, or whose fifth word is not
    an integer once its percent signs are dropped, the disk section raises
    ValueError. *)
Theorem df_output_edge_cases
    (W : Type) (H : Host W) (args : Args) (failures : list string)
    (w w1 : W) (r : CompletedProcess) :
  Script.sh Cmd.df w = (inr r, w1) ->
  (strip (stdout r) = "" ->
   Script.check_disk args failures w
   = (inr (mkDisk "" "" "" "" "" "" 0,
           if 0 >? disk_threshold args
           then (failures ++ [Msg.disk "" (disk_threshold args)])%list
           else failures), w1))
  /\ (strip (stdout r) <> "" ->
      List.length (split (strip (stdout r))) <> 6%nat ->
      Script.check_disk args failures w = (inl ValueError, w1))
  /\ (forall fs size used avail pct mount : string,
        split (strip (stdout r)) = [fs; size; used; avail; pct; mount] ->
        int (rstrip_char "%" pct) = None ->
        Script.check_disk args failures w = (inl ValueError, w1)).
Proof.
  intros Hsh. unfold Script.check_disk. rewrite (bind_run _ _ _ _ _ Hsh).
  unfold Script.df_fields. split; [ | split].
  - intros ->. simpl. unfold bind, lift, ret. simpl.
    destruct (0 >? disk_threshold args); reflexivity.
  - intros Hne Hlen.
    destruct (strip (stdout r)) as [| ch rest] eqn:Es; [contradiction | ].
    change (truthy (String ch rest)) with true. cbv iota.
    unfold bind, lift. rewrite (unpack6_wrong_length _ Hlen). reflexivity.
  - intros fs size used avail pct mount Hsplit Hint.
    assert (truthy (strip (stdout r)) = true) as ->.
    { destruct (strip (stdout r)); [discriminate Hsplit | reflexivity]. }
    rewrite Hsplit. unfold bind, lift. simpl Script.unpack6. cbv iota beta.
    assert (truthy pct = true) as Hp.
    { pose proof (split_yields_words (strip (stdout r))) as Hw. rewrite Hsplit in Hw.
      simpl in Hw. repeat (apply andb_true_iff in Hw; destruct Hw as [? Hw]).
      match goal with Hx : is_word pct = true |- _ =>
        unfold is_word in Hx; apply andb_true_iff in Hx; tauto end. }
    unfold Script.use_num. rewrite Hp, Hint. reflexivity.
Qed.

(** X12.  For every integer [n], the column "n%" is read as [n], and so is "n"
    without the percent sign; [int] reads back what an f-string prints. *)
Theorem percent_column_reads_back (n : Z) :
  Script.use_num (str_of_int n ++ "%") = inr n
  /\ Script.use_num (str_of_int n) = inr n
  /\ int (str_of_int n) = Some n.
Proof.
  destruct (use_num_percent n) as [H1 H2].
  repeat split; [exact H1 | exact H2 | apply int_str_of_int].
Qed.

Lemma disk_reason_text (s : string) (t : Z) :
  Msg.disk (s ++ "%") t
  = "Root disk usage " ++ s ++ "% exceeds " ++ str_of_int t ++ "%".
Proof.
  unfold Msg.disk. do 16 (cbn [append]; f_equal).
  induction s as [| ch s IH]; cbn [append]; [reflexivity | now rewrite IH].
Qed.

(** X13.  On a df line of six words whose fifth is "n%", the disk section
    records usage [n] and appends "Root disk usage n% exceeds t%" exactly
    when [n] is greater than the threshold [t]. *)
Theorem disk_rule_on_a_df_line
    (W : Type) (H : Host W) (args : Args) (failures : list string)
    (w w1 : W) (r : CompletedProcess) (fs size used avail mount : string) (n : Z) :
  Script.sh Cmd.df w = (inr r, w1) ->
  Script.df_fields (stdout r)
  = [fs; size; used; avail; str_of_int n ++ "%"; mount] ->
  Script.check_disk args failures w
  = (inr (mkDisk fs size used avail (str_of_int n ++ "%") mount n,
          if n >? disk_threshold args
          then (failures
                ++ [("Root disk usage " ++ str_of_int n ++ "% exceeds "
                     ++ str_of_int (disk_threshold args) ++ "%")%string])%list
          else failures), w1).
Proof.
  intros Hsh Hf. unfold Script.check_disk.
  rewrite (bind_run _ _ _ _ _ Hsh), Hf. unfold bind, lift. simpl Script.unpack6.
  cbv iota beta. rewrite (proj1 (use_num_percent n)).
  destruct (n >? disk_threshold args); unfold ret; [ | reflexivity].
  rewrite disk_reason_text. reflexivity.
Qed.

Lemma forallb_In {A} (p : A -> bool) l x :
  forallb p l = true -> In x l -> p x = true.
Proof. intros Hl Hx. rewrite forallb_forall in Hl. auto. Qed.

Lemma not_active_In states x :
  In x (not_active states) -> In x (map fst states).
Proof.
  unfold not_active. rewrite !in_map_iff.
  intros (p & Hp & Hin). apply filter_In in Hin. exists p. tauto.
Qed.

Lemma forallb_sub {A} (p : A -> bool) l l' :
  (forall x, In x l' -> In x l) -> forallb p l = true -> forallb p l' = true.
Proof.
  intros Hsub Hl. apply forallb_forall. intros x Hx.
  apply (forallb_In p l x Hl (Hsub x Hx)).
Qed.

(** X14.  The checked names are words (not empty, no white space), every down
    name is a checked name, and joining either list with single spaces and
    splitting again gives the list back: the names in the services reason
    can be read back. *)
Theorem service_names_are_words
    (W : Type) (H : Host W) (args : Args) (w w' : W) (ex : Exit) :
  Script.main args w = (inr ex, w') ->
  exists checked down : list string,
    Report.services_checked (report ex) = Some checked
    /\ Report.services_down (report ex) = Some down
    /\ forallb is_word checked = true
    /\ (forall name, In name down -> In name checked)
    /\ split (join " " checked) = checked
    /\ split (join " " down) = down.
Proof.
  intros E. main_inv E. exists (split (services args)), down. rewrite Hreport.
  split; [apply Run.services_checked_field | ].
  split; [apply Run.services_down_field | ].
  pose proof (split_yields_words (services args)) as Hwords.
  assert (forall name, In name down -> In name (split (services args))) as Hsub.
  { destruct (check_services_states _ _ _ _ _ _ Hservices)
      as (tool & wt & _ & Hyes & Hno).
    destruct tool.
    - destruct (Hyes eq_refl) as (states & _ & Hnames & ->).
      intros name Hin. rewrite <- Hnames. now apply not_active_In.
    - destruct (Hno eq_refl) as [-> _]. intros name []. }
  split; [exact Hwords | ]. split; [exact Hsub | ].
  split; apply split_join; [exact Hwords | ].
  exact (forallb_sub _ _ _ Hsub Hwords).
Qed.

Lemma firstn_In {A} n (l : list A) x : In x (firstn n l) -> In x l.
Proof.
  revert l. induction n as [| n IH]; intros l Hx; [destruct Hx | ].
  destruct l as [| a l]; [destruct Hx | ].
  simpl in Hx. destruct Hx as [-> | Hx]; [left; reflexivity | right; auto].
Qed.

(** X15.  In every report [uptime] and [boot_time] have no white space around
    them, and the three load averages are words. *)
Theorem text_fields_are_trimmed
    (W : Type) (H : Host W) (args : Args) (w w' : W) (ex : Exit) :
  Script.main args w = (inr ex, w') ->
  exists uptime boot m1 m5 m15 : string,
    Report.str_at ["uptime"] (report ex) = Some uptime
    /\ Report.str_at ["boot_time"] (report ex) = Some boot
    /\ Report.str_at ["loadavg"; "1m"] (report ex) = Some m1
    /\ Report.str_at ["loadavg"; "5m"] (report ex) = Some m5
    /\ Report.str_at ["loadavg"; "15m"] (report ex) = Some m15
    /\ strip uptime = uptime /\ strip boot = boot
    /\ is_word m1 = true /\ is_word m5 = true /\ is_word m15 = true.
Proof.
  intros E. main_inv E.
  destruct (collect_basics_returns _ _ _ Hbasics)
    as (r1 & r2 & txt & rest & Hup & Hboot & Hload).
  exists (uptime_out (basics c)), (boot_out (basics c)), (l1 (basics c)),
         (l5 (basics c)), (l15 (basics c)).
  rewrite Hreport. do 5 (split; [reflexivity | ]).
  rewrite Hup, Hboot. split; [apply strip_by_idem | ]. split; [apply strip_by_idem | ].
  pose proof (split_yields_words txt) as Hwords.
  assert (forall x, In x [l1 (basics c); l5 (basics c); l15 (basics c); rest] ->
                    is_word x = true) as Hin.
  { intros x Hx. rewrite <- Hload in Hx.
    apply (forallb_In _ _ _ Hwords). eapply firstn_In. exact Hx. }
  repeat split; apply Hin; simpl; auto.
Qed.

(** X1.  The JSON dump of the report is always printed, and last.  With
    format "json" it is the only output; with any other format (also one
    outside the declared choices) two lines come first, carrying the report's
    own timestamp and status. *)
Theorem printed_output_shape
    (W : Type) (H : Host W) (args : Args) (w w' : W) (ex : Exit) :
  Script.main args w = (inr ex, w') ->
  exists timestamp status : string,
    Report.str_at ["timestamp"] (report ex) = Some timestamp
    /\ Report.status (report ex) = Some status
    /\ (format args = "json" -> printed ex = [JsonDump (report ex)])
    /\ (format args <> "json" ->
        printed ex = [Line ("Ubuntu Health Check - " ++ timestamp);
                      Line ("Status: " ++ status);
                      JsonDump (report ex)]).
Proof.
  intros E.
  destruct (main_unfolds _ _ _ _ E)
    as (c & w1 & down & failures & w2 & pkg & w3 & dock & w4 & ts
        & _ & _ & _ & _ & _ & Hreport & Hprinted).
  exists ts, (Script.status_of failures). rewrite Hprinted, Hreport.
  split; [reflexivity | ]. split; [reflexivity | ].
  destruct (String.eqb_spec (format args) "json") as [Hf | Hf]; split;
    intros Hx; try reflexivity; contradiction.
Qed.

Lemma is_strs_strs l : Shape.is_strs (strs l) = true.
Proof.
  unfold strs, Shape.is_strs. induction l as [| s l IH]; simpl; [reflexivity | exact IH].
Qed.

Lemma used_pct_shape used total v :
  Script.used_pct used total = inr v -> Shape.float_or_zero v = true.
Proof.
  unfold Script.used_pct. destruct (total =? 0); simpl.
  - intros E. inversion E. reflexivity.
  - destruct (PyFloatOps.truediv used total); intros E; inversion E. reflexivity.
Qed.

(** X2.  Every report has the same sixteen keys in the same order, the same
    nested keys, and under each key a value of a fixed kind: [ping_ok] is one
    of "true", "false", "unknown"; [docker] is None or one of its two
    strings; [upgrades_pending] is None or an integer; [cpu_usage_pct] is None
    or a string; [memory.used_pct] is a float or the integer 0; [status] is
    "healthy" or "unhealthy". *)
Theorem report_has_a_fixed_shape
    (W : Type) (H : Host W) (args : Args) (w w' : W) (ex : Exit) :
  Script.main args w = (inr ex, w') -> Shape.report_ok (report ex) = true.
Proof.
  intros E.
  destruct (main_unfolds _ _ _ _ E)
    as (c & w1 & down & failures & w2 & pkg & w3 & dock & w4 & ts
        & Hbefore & _ & Hpkg & Hdock & _ & Hreport & _).
  apply Run.collect_before_services_returns in Hbefore.
  destruct (Run.before_failures _ _ _ _ Hbefore) as (_ & Hping & _).
  destruct Hbefore as [wb wc wm wd fs _ _ Hmemory _ _].
  apply collect_memory_returns in Hmemory.
  destruct Hmemory as (wt & _ & _ & _ & Hpct). apply used_pct_shape in Hpct.
  apply collect_upgrades_returns in Hpkg. apply collect_docker_returns in Hdock.
  rewrite Hreport. unfold Shape.report_ok, Shape.holds, Script.report_data.
  cbn [path item assoc String.eqb Ascii.eqb Bool.eqb andb].
  rewrite !is_strs_strs, Hpct.
  assert (Shape.one_of ["healthy"; "unhealthy"]
            (PyStr (Script.status_of failures)) = true) as ->
    by (destruct failures; reflexivity).
  assert (Shape.or_none Shape.is_str (opt_str (cpu_usage c)) = true) as ->
    by (destruct (cpu_usage c); reflexivity).
  assert (Shape.or_none Shape.is_int pkg = true) as ->
    by (destruct Hpkg as [-> | (n & ->)]; reflexivity).
  assert (Shape.or_none
            (Shape.one_of ["running"; "installed_not_running_or_no_perms"]) dock
          = true) as ->
    by (destruct Hdock as [-> | [-> | ->]]; reflexivity).
  assert (Shape.one_of ["true"; "false"; "unknown"] (PyStr (ping_ok c)) = true)
    as -> by (destruct Hping as [-> | [-> | ->]]; reflexivity).
  reflexivity.
Qed.

Section Memory.
Context {W : Type} {H : Host W}.

Lemma read_mem_kb_blank key (w w1 : W) r :
  Script.sh (Cmd.meminfo key) w = (inr r, w1) ->
  strip (stdout r) = "" ->
  Script.read_mem_kb key w = (inr 0, w1).
Proof.
  intros Hsh Hb. unfold Script.read_mem_kb.
  rewrite (bind_run _ _ _ _ _ Hsh). cbv beta zeta. rewrite Hb. reflexivity.
Qed.

End Memory.

(** X16.  A memory reading whose command prints nothing is 0.  When MemTotal
    reads 0 the memory section does not raise: the figures are 0, 0, 0 when
    MemAvailable is missing too, and total 0, used [-avail], percentage 0
    when it is there. *)
Theorem missing_meminfo_reads_zero
    (W : Type) (H : Host W) (w w1 w2 : W) (r1 r2 : CompletedProcess) :
  Script.sh (Cmd.meminfo "MemTotal") w = (inr r1, w1) ->
  Script.sh (Cmd.meminfo "MemAvailable") w1 = (inr r2, w2) ->
  strip (stdout r1) = "" ->
  (strip (stdout r2) = "" ->
   Script.collect_memory w = (inr (mkMemory 0 0 0 (PyInt 0)), w2))
  /\ (forall avail : Z,
        strip (stdout r2) <> "" -> int (strip (stdout r2)) = Some avail ->
        Script.collect_memory w = (inr (mkMemory 0 avail (- avail) (PyInt 0)), w2)).
Proof.
  intros H1 H2 Hb1. pose proof (read_mem_kb_blank _ _ _ _ H1 Hb1) as Ht.
  unfold Script.collect_memory. rewrite (bind_run _ _ _ _ _ Ht). split.
  - intros Hb2. rewrite (bind_run _ _ _ _ _ (read_mem_kb_blank _ _ _ _ H2 Hb2)).
    reflexivity.
  - intros avail Hne Hint.
    assert (Script.read_mem_kb "MemAvailable" w1 = (inr avail, w2)) as Ha.
    { unfold Script.read_mem_kb. rewrite (bind_run _ _ _ _ _ H2). cbv beta zeta.
      destruct (strip (stdout r2)); [contradiction | ].
      change (truthy (String a s)) with true. cbv iota. rewrite Hint. reflexivity. }
    rewrite (bind_run _ _ _ _ _ Ha). reflexivity.
Qed.

Section Defaults.
Context {W : Type} {H : Host W}.

Lemma check_ping_absent args failures (w w1 : W) :
  Script.has "ping" w = (inr false, w1) ->
  Script.check_ping args failures w = (inr ("unknown", failures), w1).
Proof.
  intros E. unfold Script.check_ping. rewrite (bind_run _ _ _ _ _ E). reflexivity.
Qed.

Lemma check_services_absent args failures (w w1 : W) :
  Script.has "systemctl" w = (inr false, w1) ->
  Script.check_services args failures w = (inr ([], failures), w1).
Proof.
  intros E. unfold Script.check_services. rewrite (bind_run _ _ _ _ _ E).
  reflexivity.
Qed.

Lemma collect_upgrades_absent (w w1 : W) :
  Script.has "apt-get" w = (inr false, w1) ->
  Script.collect_upgrades w = (inr PyNone, w1).
Proof.
  intros E. unfold Script.collect_upgrades. rewrite (bind_run _ _ _ _ _ E).
  reflexivity.
Qed.

Lemma collect_docker_absent (w w1 : W) :
  Script.has "docker" w = (inr false, w1) ->
  Script.collect_docker w = (inr PyNone, w1).
Proof.
  intros E. unfold Script.collect_docker. rewrite (bind_run _ _ _ _ _ E).
  reflexivity.
Qed.

Lemma collect_memory_blank (w w1 w2 : W) r1 r2 :
  Script.sh (Cmd.meminfo "MemTotal") w = (inr r1, w1) ->
  Script.sh (Cmd.meminfo "MemAvailable") w1 = (inr r2, w2) ->
  strip (stdout r1) = "" -> strip (stdout r2) = "" ->
  Script.collect_memory w = (inr (mkMemory 0 0 0 (PyInt 0)), w2).
Proof.
  intros H1 H2 Hb1 Hb2. unfold Script.collect_memory.
  rewrite (bind_run _ _ _ _ _ (read_mem_kb_blank _ _ _ _ H1 Hb1)).
  rewrite (bind_run _ _ _ _ _ (read_mem_kb_blank _ _ _ _ H2 Hb2)).
  reflexivity.
Qed.

Lemma check_disk_blank args failures (w w1 : W) r :
  Script.sh Cmd.df w = (inr r, w1) ->
  strip (stdout r) = "" ->
  Script.check_disk args failures w
  = (inr (mkDisk "" "" "" "" "" "" 0,
          if 0 >? disk_threshold args
          then (failures ++ [Msg.disk "" (disk_threshold args)])%list
          else failures), w1).
Proof.
  intros Hsh Hb. unfold Script.check_disk. rewrite (bind_run _ _ _ _ _ Hsh).
  unfold Script.df_fields. rewrite Hb. simpl. unfold bind, lift, ret. simpl.
  destruct (0 >? disk_threshold args); reflexivity.
Qed.

End Defaults.

Section BareHost.
Context {W : Type} {H : Host W}.
Hypothesis no_tool : forall cmd (v : W), exists v', shutil_which cmd v = (inr None, v').
Hypothesis silent : forall cmd (v : W), exists r v',
  subprocess_run cmd v = (inr r, v') /\ strip (stdout r) = "".
Hypothesis named : forall v : W, exists h v', platform_node v = (inr h, v').
Hypothesis released : forall v : W, exists k v', platform_release v = (inr k, v').
Hypothesis loaded : forall v : W, exists txt v',
  read_text "/proc/loadavg" v = (inr txt, v') /\ (4 <= List.length (split txt))%nat.
Hypothesis clocked : forall v : W, exists ts v', utc_timestamp v = (inr ts, v').

Lemma bare_has cmd (v : W) : exists v', Script.has cmd v = (inr false, v').
Proof.
  destruct (no_tool cmd v) as (v' & E). exists v'.
  unfold Script.has. rewrite (bind_run _ _ _ _ _ E). reflexivity.
Qed.

Lemma bare_sh cmd (v : W) : exists r v',
  Script.sh cmd v = (inr r, v') /\ strip (stdout r) = "".
Proof. exact (silent cmd v). Qed.

Lemma bare_before args (v : W) :
  0 <= disk_threshold args ->
  exists c v',
    Script.collect_before_services args v = (inr c, v')
    /\ cpu_usage c = None
    /\ memory c = mkMemory 0 0 0 (PyInt 0)
    /\ disk c = mkDisk "" "" "" "" "" "" 0
    /\ ping_ok c = "unknown"
    /\ failures_so_far c = [].
Proof.
  intros Ht. unfold Script.collect_before_services.
  destruct (named v) as (h & v1 & Hn). destruct (released v1) as (k & v2 & Hr).
  destruct (read_text "/etc/os-release" v2) as [res v3] eqn:Ho.
  destruct (bare_sh Cmd.uptime v3) as (r1 & v4 & Hu & _).
  destruct (bare_sh Cmd.boot v4) as (r2 & v5 & Hb & _).
  destruct (loaded v5) as (txt & v6 & Hl & Hlen).
  pose proof (collect_basics_runs _ _ _ _ _ _ _ _ _ _ _ _ _ Hn Hr Ho Hu Hb Hl) as Hbas.
  rewrite (unpack4_long _ Hlen) in Hbas. rewrite (bind_run _ _ _ _ _ Hbas).
  destruct (bare_has "mpstat" v6) as (v7 & Hm).
  destruct (bare_sh Cmd.top v7) as (r3 & v8 & Htop & Htb).
  assert (Script.collect_cpu v6 = (inr None, v8)) as Hcpu.
  { unfold Script.collect_cpu. rewrite (bind_run _ _ _ _ _ Hm).
    rewrite (bind_run _ _ _ _ _ Htop), Htb. reflexivity. }
  rewrite (bind_run _ _ _ _ _ Hcpu).
  destruct (bare_sh (Cmd.meminfo "MemTotal") v8) as (r4 & v9 & Hmt & Hmtb).
  destruct (bare_sh (Cmd.meminfo "MemAvailable") v9) as (r5 & v10 & Hma & Hmab).
  pose proof (collect_memory_blank _ _ _ _ _ Hmt Hma Hmtb Hmab) as Hmem.
  rewrite (bind_run _ _ _ _ _ Hmem).
  destruct (bare_sh Cmd.df v10) as (r6 & v11 & Hdf & Hdfb).
  pose proof (check_disk_blank args [] _ _ _ Hdf Hdfb) as Hdisk.
  assert ((0 >? disk_threshold args) = false) as Hgt
    by (destruct (Z.gtb_spec 0 (disk_threshold args)); [lia | reflexivity]).
  rewrite Hgt in Hdisk. rewrite (bind_run _ _ _ _ _ Hdisk). cbv iota beta.
  destruct (bare_has "ping" v11) as (v12 & Hp).
  pose proof (check_ping_absent args [] _ _ Hp) as Hping.
  rewrite (bind_run _ _ _ _ _ Hping). cbv iota beta.
  eexists. eexists. split; [reflexivity | ]. repeat split.
Qed.

End BareHost.

(** X17.  On a host where no tool is found, every command returns without
    output, the names and the clock answer, and the load-average file holds
    four words, the run prints a report and exits with 0 under any
    non-negative threshold: status "healthy", no failures, no CPU figure,
    memory 0, empty disk percentage, ping "unknown", nothing down, no upgrade
    count, no docker state. *)
Theorem bare_host_still_reports
    (W : Type) (H : Host W) (args : Args) (w : W) :
  (forall cmd (v : W), exists v', shutil_which cmd v = (inr None, v')) ->
  (forall cmd (v : W), exists r v',
      subprocess_run cmd v = (inr r, v') /\ strip (stdout r) = "") ->
  (forall v : W, exists h v', platform_node v = (inr h, v')) ->
  (forall v : W, exists k v', platform_release v = (inr k, v')) ->
  (forall v : W, exists txt v',
      read_text "/proc/loadavg" v = (inr txt, v')
      /\ (4 <= List.length (split txt))%nat) ->
  (forall v : W, exists ts v', utc_timestamp v = (inr ts, v')) ->
  0 <= disk_threshold args ->
  exists (ex : Exit) (w' : W),
    Script.main args w = (inr ex, w')
    /\ exit_code ex = 0
    /\ Report.status (report ex) = Some "healthy"
    /\ Report.failures (report ex) = Some []
    /\ path ["cpu_usage_pct"] (report ex) = Some PyNone
    /\ path ["memory"] (report ex)
       = Some (PyDict [("used_pct", PyInt 0); ("used_kb", PyInt 0);
                       ("total_kb", PyInt 0)])
    /\ Report.disk_used_pct (report ex) = Some (PyStr "")
    /\ Report.ping_ok (report ex) = Some "unknown"
    /\ Report.services_down (report ex) = Some []
    /\ path ["packages"; "upgrades_pending"] (report ex) = Some PyNone
    /\ path ["docker"] (report ex) = Some PyNone.
Proof.
  intros no_tool silent named released loaded clocked Ht.
  destruct (bare_before no_tool silent named released loaded args w Ht)
    as (c & v1 & Hbefore & Hcpu & Hmem & Hdisk & Hping & Hfs).
  destruct (bare_has no_tool "systemctl" v1) as (v2 & Hs).
  pose proof (check_services_absent args (failures_so_far c) _ _ Hs) as Hserv.
  destruct (bare_has no_tool "apt-get" v2) as (v3 & Ha).
  pose proof (collect_upgrades_absent _ _ Ha) as Hupg.
  destruct (bare_has no_tool "docker" v3) as (v4 & Hd).
  pose proof (collect_docker_absent _ _ Hd) as Hdock.
  destruct (clocked v4) as (ts & v5 & Hts).
  unfold Script.main.
  rewrite (bind_run _ _ _ _ _ Hbefore), (bind_run _ _ _ _ _ Hserv). cbv iota beta.
  rewrite (bind_run _ _ _ _ _ Hupg), (bind_run _ _ _ _ _ Hdock).
  rewrite (bind_run _ _ _ _ _ Hts).
  eexists. eexists. split; [reflexivity | ].
  cbn [report exit_code]. rewrite Hfs, Hcpu, Hmem, Hdisk, Hping.
  repeat split.
Qed.

Section Forward.
Context {W : Type} {H : Host W}.

Lemma services_loop_runs svcs : forall acc (w w' : W) states,
  queried_states svcs w = (inr states, w') ->
  Script.services_loop svcs acc w = (inr (acc ++ not_active states)%list, w').
Proof.
  induction svcs as [| svc rest IH]; intros acc w w' states E; simpl in E.
  - run_step E. simpl. unfold not_active. simpl. rewrite app_nil_r. reflexivity.
  - run_step E. run_step E. run_step E. simpl.
    rewrite (bind_run _ _ _ _ _ R).
    unfold not_active. simpl.
    destruct (returncode a =? 0) eqn:Erc; simpl.
    + apply IH. exact R0.
    + rewrite (IH _ _ _ _ R0). unfold not_active. rewrite <- app_assoc. reflexivity.
Qed.

End Forward.

(** X5.  With systemctl present, if each query of the checked services returns,
    the services section returns: the down list is the names whose query
    exit code is not 0, and the services reason is appended exactly when some
    exit code is not 0. *)
Theorem services_check_runs
    (W : Type) (H : Host W) (args : Args) (failures : list string)
    (w w1 w2 : W) (states : list (string * Z)) :
  Script.has "systemctl" w = (inr true, w1) ->
  queried_states (split (services args)) w1 = (inr states, w2) ->
  Script.check_services args failures w
  = (inr (not_active states,
          if forallb (fun p => snd p =? 0) states then failures
          else (failures
                ++ [("Services not active: " ++ join " " (not_active states))%string])%list),
     w2).
Proof.
  intros Hhas Hq. unfold Script.check_services.
  rewrite (bind_run _ _ _ _ _ Hhas).
  rewrite (bind_run _ _ _ _ _ (services_loop_runs _ [] _ _ _ Hq)).
  simpl app.
  assert (forallb (fun p => snd p =? 0) states
          = match not_active states with [] => true | _ :: _ => false end) as ->.
  { unfold not_active. clear Hq. induction states as [| [n rc] states IH]; simpl;
      [reflexivity | ]. destruct (rc =? 0); simpl; [exact IH | reflexivity]. }
  destruct (not_active states); reflexivity.
Qed.

(** X4.  With the tool present, ping is run once on the configured target and
    classified by its exit code alone: 0 is "true", anything else is "false"
    with the ping reason appended.  docker is "running" on exit code 0 of
    [docker info], "installed_not_running_or_no_perms" otherwise. *)
Theorem present_tools_classify_by_exit_code
    (W : Type) (H : Host W) (args : Args) (failures : list string)
    (w w1 w2 : W) (r : CompletedProcess) :
  (Script.has "ping" w = (inr true, w1) ->
   Script.sh ("ping -c 1 -W 2 " ++ ping args) w1 = (inr r, w2) ->
   Script.check_ping args failures w
   = (inr (if returncode r =? 0 then ("true", failures)
           else ("false",
                 (failures ++ [("Ping to " ++ ping args ++ " failed")%string])%list)),
      w2))
  /\ (Script.has "docker" w = (inr true, w1) ->
      Script.sh "docker info" w1 = (inr r, w2) ->
      Script.collect_docker w
      = (inr (PyStr (if returncode r =? 0 then "running"
                     else "installed_not_running_or_no_perms")), w2)).
Proof.
  split; intros Hhas Hsh.
  - unfold Script.check_ping. rewrite (bind_run _ _ _ _ _ Hhas).
    unfold Cmd.ping. rewrite (bind_run _ _ _ _ _ Hsh).
    destruct (returncode r =? 0); reflexivity.
  - unfold Script.collect_docker. rewrite (bind_run _ _ _ _ _ Hhas).
    unfold Cmd.docker. rewrite (bind_run _ _ _ _ _ Hsh). reflexivity.
Qed.

Lemma unreadable_os_release_is_tolerated_witness :
  Script.collect_basics scenario_d_later
  = (inr (mkBasics "web01" "6.8.0-31-generic" ""
            (strip (stdout (answer scenario_d_later Cmd.uptime)))
            (strip (stdout (answer scenario_d_later Cmd.boot)))
            "12.50" "9.75" "4.10"),
     scenario_d_later).
Proof.
  apply (unreadable_os_release_is_tolerated
           scenario_d_later scenario_d_later scenario_d_later scenario_d_later
           scenario_d_later scenario_d_later scenario_d_later
           "web01" "6.8.0-31-generic" OSError
           (answer scenario_d_later Cmd.uptime) (answer scenario_d_later Cmd.boot)
           ("12.50 9.75 4.10 7/512 999" ++ nl) "12.50" "9.75" "4.10" "7/512");
    reflexivity.
Defined.

Lemma loadavg_needs_four_words_witness :
  Script.collect_basics short_loadavg = (inl ValueError, short_loadavg)
  /\ exists b : Basics,
       Script.collect_basics scenario_a = (inr b, scenario_a)
       /\ l1 b = nth 0 (split ("0.12 0.08 0.05 1/234 5678" ++ nl)) ""
       /\ l5 b = nth 1 (split ("0.12 0.08 0.05 1/234 5678" ++ nl)) ""
       /\ l15 b = nth 2 (split ("0.12 0.08 0.05 1/234 5678" ++ nl)) "".
Proof.
  split.
  - refine (proj1 (loadavg_needs_four_words
             short_loadavg short_loadavg short_loadavg short_loadavg
             short_loadavg short_loadavg short_loadavg
             "web01" "5.15.0-105-generic" (inl OSError)
             (answer short_loadavg Cmd.uptime) (answer short_loadavg Cmd.boot)
             ("0.12 0.08" ++ nl) _ _ _ _ _ _) _);
      try reflexivity.
    vm_compute. lia.
  - refine (proj2 (loadavg_needs_four_words
             scenario_a scenario_a scenario_a scenario_a
             scenario_a scenario_a scenario_a
             "web01" "5.15.0-105-generic"
             (fst (read_text "/etc/os-release" scenario_a))
             (answer scenario_a Cmd.uptime) (answer scenario_a Cmd.boot)
             ("0.12 0.08 0.05 1/234 5678" ++ nl) _ _ _ _ _ _) _);
      try reflexivity.
    vm_compute. lia.
Defined.

Lemma pretty_name_takes_first_match_witness :
  Script.pretty_name ["NAME=Ubuntu" ++ nl; "ID=ubuntu" ++ nl] = inr ""
  /\ Script.pretty_name
       (["NAME=Ubuntu" ++ nl]
        ++ ("PRETTY_NAME=" ++ (Cmd.dq ++ "Ubuntu 22.04.4 LTS" ++ Cmd.dq ++ nl))
           :: ["PRETTY_NAME=other" ++ nl])
     = inr (strip_char (ascii_of_nat 34)
              (strip (Cmd.dq ++ "Ubuntu 22.04.4 LTS" ++ Cmd.dq ++ nl))).
Proof.
  split.
  - apply (proj1 pretty_name_takes_first_match).
    repeat constructor.
  - apply (proj1 (proj2 pretty_name_takes_first_match)).
    repeat constructor.
Defined.

Lemma absent_tools_are_not_run_witness :
  Script.check_ping defaults ["earlier"] scenario_c
  = (inr ("unknown", ["earlier"]), scenario_c)
  /\ Script.check_services defaults ["earlier"] tt = (inr ([], ["earlier"]), tt)
  /\ Script.collect_upgrades scenario_c = (inr PyNone, scenario_c)
  /\ Script.collect_docker scenario_c = (inr PyNone, scenario_c).
Proof.
  split; [ | split; [ | split]].
  - apply (proj1 (absent_tools_are_not_run _ _ defaults ["earlier"]
                    scenario_c scenario_c)). reflexivity.
  - apply (proj1 (proj2 (absent_tools_are_not_run _ _ defaults ["earlier"] tt tt))).
    reflexivity.
  - apply (proj1 (proj2 (proj2 (absent_tools_are_not_run _ _ defaults []
                                  scenario_c scenario_c)))). reflexivity.
  - apply (proj2 (proj2 (proj2 (absent_tools_are_not_run _ _ defaults []
                                  scenario_c scenario_c)))). reflexivity.
Defined.


Lemma upgrades_parse_never_aborts_witness :
  exists v : PyVal,
    Script.collect_upgrades scenario_a = (inr v, scenario_a)
    /\ (stdout (answer scenario_a Cmd.apt) = "" -> v = PyInt 0)
    /\ (stdout (answer scenario_a Cmd.apt) <> "" ->
        strip (stdout (answer scenario_a Cmd.apt)) = "" -> v = PyNone)
    /\ (stdout (answer scenario_a Cmd.apt) <> "" ->
        v = match int (strip (stdout (answer scenario_a Cmd.apt))) with
            | Some n => PyInt n
            | None => PyNone
            end).
Proof.
  apply (upgrades_parse_never_aborts _ _ scenario_a scenario_a scenario_a
           (answer scenario_a Cmd.apt)); reflexivity.
Defined.

Lemma df_output_edge_cases_witness :
  Script.check_disk defaults [] df_silent
  = (inr (mkDisk "" "" "" "" "" "" 0,
          if 0 >? disk_threshold defaults
          then ([] ++ [Msg.disk "" (disk_threshold defaults)])%list
          else []), df_silent)
  /\ Script.check_disk defaults [] df_five = (inl ValueError, df_five)
  /\ Script.check_disk defaults [] df_dash = (inl ValueError, df_dash).
Proof.
  split; [ | split].
  - refine (proj1 (df_output_edge_cases _ _ defaults [] df_silent df_silent
                     (answer df_silent Cmd.df) _) _); reflexivity.
  - refine (proj1 (proj2 (df_output_edge_cases _ _ defaults [] df_five df_five
                            (answer df_five Cmd.df) _)) _ _);
      [reflexivity | vm_compute; discriminate | vm_compute; discriminate].
  - refine (proj2 (proj2 (df_output_edge_cases _ _ defaults [] df_dash df_dash
                            (answer df_dash Cmd.df) _))
              "/dev/sda1" "50G" "45G" "5G" "-" "/" _ _); reflexivity.
Defined.

Lemma disk_rule_on_a_df_line_witness :
  Script.check_disk defaults [] scenario_a
  = (inr (mkDisk "/dev/sda1" "50G" "45G" "5G" (str_of_int 90 ++ "%") "/" 90,
          if 90 >? disk_threshold defaults
          then ([] ++ [("Root disk usage " ++ str_of_int 90 ++ "% exceeds "
                        ++ str_of_int (disk_threshold defaults) ++ "%")%string])%list
          else []), scenario_a).
Proof.
  apply (disk_rule_on_a_df_line _ _ defaults [] scenario_a scenario_a
           (answer scenario_a Cmd.df)); reflexivity.
Defined.

Lemma service_names_are_words_witness :
  exists checked down : list string,
    Report.services_checked (report (exit_of (Script.main defaults scenario_all)))
    = Some checked
    /\ Report.services_down (report (exit_of (Script.main defaults scenario_all)))
       = Some down
    /\ forallb is_word checked = true
    /\ (forall name, In name down -> In name checked)
    /\ split (join " " checked) = checked
    /\ split (join " " down) = down.
Proof.
  apply (service_names_are_words _ _ defaults scenario_all scenario_all).
  vm_compute. reflexivity.
Defined.

Lemma text_fields_are_trimmed_witness :
  exists uptime boot m1 m5 m15 : string,
    Report.str_at ["uptime"] (report (exit_of (Script.main defaults scenario_a)))
    = Some uptime
    /\ Report.str_at ["boot_time"] (report (exit_of (Script.main defaults scenario_a)))
       = Some boot
    /\ Report.str_at ["loadavg"; "1m"]
         (report (exit_of (Script.main defaults scenario_a))) = Some m1
    /\ Report.str_at ["loadavg"; "5m"]
         (report (exit_of (Script.main defaults scenario_a))) = Some m5
    /\ Report.str_at ["loadavg"; "15m"]
         (report (exit_of (Script.main defaults scenario_a))) = Some m15
    /\ strip uptime = uptime /\ strip boot = boot
    /\ is_word m1 = true /\ is_word m5 = true /\ is_word m15 = true.
Proof.
  apply (text_fields_are_trimmed _ _ defaults scenario_a scenario_a).
  vm_compute. reflexivity.
Defined.

Lemma printed_output_shape_witness :
  exists timestamp status : string,
    Report.str_at ["timestamp"]
      (report (exit_of (Script.main (mkArgs 85 "8.8.8.8" "ssh cron" "xml") scenario_d)))
    = Some timestamp
    /\ Report.status
         (report (exit_of (Script.main (mkArgs 85 "8.8.8.8" "ssh cron" "xml") scenario_d)))
       = Some status
    /\ (format (mkArgs 85 "8.8.8.8" "ssh cron" "xml") = "json" ->
        printed (exit_of (Script.main (mkArgs 85 "8.8.8.8" "ssh cron" "xml") scenario_d))
        = [JsonDump (report (exit_of (Script.main
                                (mkArgs 85 "8.8.8.8" "ssh cron" "xml") scenario_d)))])
    /\ (format (mkArgs 85 "8.8.8.8" "ssh cron" "xml") <> "json" ->
        printed (exit_of (Script.main (mkArgs 85 "8.8.8.8" "ssh cron" "xml") scenario_d))
        = [Line ("Ubuntu Health Check - " ++ timestamp);
           Line ("Status: " ++ status);
           JsonDump (report (exit_of (Script.main
                               (mkArgs 85 "8.8.8.8" "ssh cron" "xml") scenario_d)))]).
Proof.
  apply (printed_output_shape _ _ (mkArgs 85 "8.8.8.8" "ssh cron" "xml")
           scenario_d scenario_d).
  vm_compute. reflexivity.
Defined.

Lemma report_has_a_fixed_shape_witness :
  Shape.report_ok (report (exit_of (Script.main defaults scenario_all))) = true.
Proof.
  apply (report_has_a_fixed_shape _ _ defaults scenario_all scenario_all).
  vm_compute. reflexivity.
Defined.

Lemma missing_meminfo_reads_zero_witness :
  Script.collect_memory tt = (inr (mkMemory 0 0 0 (PyInt 0)), tt).
Proof.
  refine (proj1 (missing_meminfo_reads_zero _ _ tt tt tt
                   (mkProc 127 "" "not found") (mkProc 127 "" "not found")
                   _ _ _) _); reflexivity.
Defined.

Lemma bare_host_still_reports_witness :
  exists (ex : Exit) (w' : unit),
    Script.main defaults tt = (inr ex, w')
    /\ exit_code ex = 0
    /\ Report.status (report ex) = Some "healthy"
    /\ Report.failures (report ex) = Some []
    /\ path ["cpu_usage_pct"] (report ex) = Some PyNone
    /\ path ["memory"] (report ex)
       = Some (PyDict [("used_pct", PyInt 0); ("used_kb", PyInt 0);
                       ("total_kb", PyInt 0)])
    /\ Report.disk_used_pct (report ex) = Some (PyStr "")
    /\ Report.ping_ok (report ex) = Some "unknown"
    /\ Report.services_down (report ex) = Some []
    /\ path ["packages"; "upgrades_pending"] (report ex) = Some PyNone
    /\ path ["docker"] (report ex) = Some PyNone.
Proof.
  apply (bare_host_still_reports unit bare defaults tt).
  - intros cmd v. exists v. reflexivity.
  - intros cmd v. exists (mkProc 127 "" "not found"), v. split; reflexivity.
  - intros v. exists "", v. reflexivity.
  - intros v. exists "5.10.0", v. reflexivity.
  - intros v. exists ("0.00 0.01 0.05 1/90 1234" ++ nl), v.
    split; [reflexivity | vm_compute; lia].
  - intros v. exists "1970-01-01T00:00:00Z", v. reflexivity.
  - vm_compute. discriminate.
Defined.

Lemma services_check_runs_witness :
  Script.check_services (mkArgs 85 "8.8.8.8" "ssh cron ssh" "json") [] [0; 0; 3]
  = (inr (not_active [("ssh", 0); ("cron", 0); ("ssh", 3)],
          if forallb (fun p => snd p =? 0) [("ssh", 0); ("cron", 0); ("ssh", 3)]
          then []
          else ([] ++ [("Services not active: "
                        ++ join " " (not_active [("ssh", 0); ("cron", 0); ("ssh", 3)]))%string])%list),
     []).
Proof.
  apply (services_check_runs _ _ (mkArgs 85 "8.8.8.8" "ssh cron ssh" "json") []
           [0; 0; 3] [0; 0; 3] []); reflexivity.
Defined.

Lemma present_tools_classify_by_exit_code_witness :
  Script.check_ping defaults [] scenario_b
  = (inr (if returncode (mkProc 1 "" "") =? 0 then ("true", [])
          else ("false",
                ([] ++ [("Ping to " ++ ping defaults ++ " failed")%string])%list)),
     scenario_b)
  /\ Script.collect_docker scenario_a
     = (inr (PyStr (if returncode (ok "Server: Docker Engine") =? 0 then "running"
                    else "installed_not_running_or_no_perms")), scenario_a).
Proof.
  split.
  - apply (proj1 (present_tools_classify_by_exit_code _ _ defaults []
                    scenario_b scenario_b scenario_b (mkProc 1 "" ""))); reflexivity.
  - apply (proj2 (present_tools_classify_by_exit_code _ _ defaults []
                    scenario_a scenario_a scenario_a (ok "Server: Docker Engine")));
      reflexivity.
Defined.
